(** * salt_check: validation, coercion and assertion core

    A shallow embedding of [src/salt_check.py] (classes [SaltCheck] and
    [StateTestLoader], and the module-level entry points) together with the
    properties its specification states about it.

    Conventions of the embedding.
    - Python objects are the inductive [value]: [None], booleans, integers,
      strings, lists, dicts and exception objects (the objects that
      [call_salt_command] hands back when the minion raises).  Floats and
      user-defined classes other than exceptions are outside the fragment.
    - The interpreter is Python 3: ordering of unrelated types raises
      [TypeError], [int] accepts single underscores between digits.  A
      character of a [string] stands for one code point below 256.
    - A call returns [Ret v] or raises [Raise e]; the text the interpreter
      attaches to its own errors changes between releases and is not
      modelled, only the class of the error is.  [assert] statements are
      active (the interpreter does not run with [-O]).
    - The minion ([salt.client.Caller.function]), [eval], the class
      hierarchy of exceptions and the file system ([os.walk], [open] and
      [yaml.load], [os.path.abspath]) are collaborators: they are section
      variables, and every call made to the minion is recorded in the
      [world]. *)

From Stdlib Require Import ZArith List String Ascii Bool Lia DecimalString.
Import ListNotations.

Local Open Scope list_scope.
Local Open Scope Z_scope.
Local Open Scope string_scope.

(* ================================================================== *)
(** * Python values *)
(* ================================================================== *)

Unset Elimination Schemes.
Inductive value : Type :=
| VNone
| VBool (b : bool)
| VInt (z : Z)
| VStr (s : string)
| VList (l : list value)
| VDict (d : list (value * value))
| VExc (oid : nat) (cls : string) (args : list value).
Set Elimination Schemes.

(** Insertion-ordered dict: association list from keys to values. *)
Definition pydict : Type := list (value * value).

(** Induction over values that reaches inside lists, dicts and the
    arguments of exception objects. *)
Fixpoint value_induction (P : value -> Prop)
  (HNone : P VNone)
  (HBool : forall b, P (VBool b))
  (HInt : forall z, P (VInt z))
  (HStr : forall s, P (VStr s))
  (HList : forall l, Forall P l -> P (VList l))
  (HDict : forall d, Forall (fun kv => P (fst kv) /\ P (snd kv)) d ->
                     P (VDict d))
  (HExc : forall oid cls args, Forall P args -> P (VExc oid cls args))
  (v : value) {struct v} : P v :=
  let rec := value_induction P HNone HBool HInt HStr HList HDict HExc in
  match v with
  | VNone => HNone
  | VBool b => HBool b
  | VInt z => HInt z
  | VStr s => HStr s
  | VList l =>
      HList l ((fix all (l : list value) : Forall P l :=
                  match l with
                  | [] => Forall_nil P
                  | x :: r => Forall_cons x (rec x) (all r)
                  end) l)
  | VDict d =>
      HDict d ((fix all (d : pydict)
                  : Forall (fun kv => P (fst kv) /\ P (snd kv)) d :=
                  match d with
                  | [] => Forall_nil _
                  | (k, x) :: r =>
                      Forall_cons (k, x) (conj (rec k) (rec x)) (all r)
                  end) d)
  | VExc oid cls args =>
      HExc oid cls args
        ((fix all (l : list value) : Forall P l :=
            match l with
            | [] => Forall_nil P
            | x :: r => Forall_cons x (rec x) (all r)
            end) args)
  end.

(** Runtime types: what [type(x)] returns. *)
Inductive pytype : Type :=
| TNone | TBool | TInt | TStr | TList | TDict
| TExc (cls : string).

Definition type_of (v : value) : pytype :=
  match v with
  | VNone => TNone
  | VBool _ => TBool
  | VInt _ => TInt
  | VStr _ => TStr
  | VList _ => TList
  | VDict _ => TDict
  | VExc _ cls _ => TExc cls
  end.

Definition pytype_eqb (t u : pytype) : bool :=
  match t, u with
  | TNone, TNone | TBool, TBool | TInt, TInt
  | TStr, TStr | TList, TList | TDict, TDict => true
  | TExc c, TExc c' => String.eqb c c'
  | _, _ => false
  end.

(** Exceptions in flight, and the outcome of a call. *)
Record exc : Type := mkExc { exc_class : string; exc_args : list value }.

Inductive outcome (A : Type) : Type :=
| Ret (a : A)
| Raise (e : exc).
Arguments Ret {A} a.
Arguments Raise {A} e.

Definition TypeError : exc := mkExc "TypeError" [].
Definition ValueError : exc := mkExc "ValueError" [].
Definition AttributeError : exc := mkExc "AttributeError" [].
Definition KeyError (k : value) : exc := mkExc "KeyError" [k].
Definition AssertionError (msg : string) : exc :=
  mkExc "AssertionError" [VStr msg].

Definition obind {A B : Type} (o : outcome A) (f : A -> outcome B)
  : outcome B :=
  match o with
  | Ret a => f a
  | Raise e => Raise e
  end.

(* ================================================================== *)
(** * The interpreter's generic operations *)
(* ================================================================== *)

(** [bool] is a subclass of [int]: [True == 1]. *)
Definition bool_int (b : bool) : Z := if b then 1 else 0.

(** [bool(x)]. *)
Definition py_truthy (v : value) : bool :=
  match v with
  | VNone => false
  | VBool b => b
  | VInt z => negb (Z.eqb z 0)
  | VStr s => negb (String.eqb s EmptyString)
  | VList l => match l with [] => false | _ => true end
  | VDict d => match d with [] => false | _ => true end
  | VExc _ _ _ => true
  end.

(** Lists and dicts are unhashable. *)
Definition hashable (v : value) : bool :=
  match v with
  | VList _ | VDict _ => false
  | _ => true
  end.

(** [==] on the objects that are not containers.  Exception objects
    compare by identity. *)
Definition scalar_eq (a b : value) : bool :=
  match a, b with
  | VNone, VNone => true
  | VBool x, VBool y => Bool.eqb x y
  | VBool x, VInt y => Z.eqb (bool_int x) y
  | VInt x, VBool y => Z.eqb x (bool_int y)
  | VInt x, VInt y => Z.eqb x y
  | VStr s, VStr t => String.eqb s t
  | VExc i _ _, VExc j _ _ => Nat.eqb i j
  | _, _ => false
  end.

(** [d.get(k)] on the association list: the first entry whose key equals
    [k]. *)
Fixpoint dict_get (k : value) (d : pydict) : option value :=
  match d with
  | [] => None
  | (k', v) :: r => if scalar_eq k' k then Some v else dict_get k r
  end.

(** [d[k] = v]: overwrite in place (the old key object stays), else
    append. *)
Fixpoint dict_set (k v : value) (d : pydict) : pydict :=
  match d with
  | [] => [(k, v)]
  | (k', v') :: r =>
      if scalar_eq k' k then (k', v) :: r else (k', v') :: dict_set k v r
  end.

Definition dict_keys (d : pydict) : list value := map fst d.

(** [a == b]. Lists compare element by element; dicts have the same size
    and every entry of the left one is matched in the right one. *)
Fixpoint py_eq (a b : value) {struct a} : bool :=
  match a with
  | VList l =>
      match b with
      | VList m =>
          (fix items (l m : list value) {struct l} : bool :=
             match l, m with
             | [], [] => true
             | x :: l', y :: m' => py_eq x y && items l' m'
             | _, _ => false
             end) l m
      | _ => false
      end
  | VDict d =>
      match b with
      | VDict e =>
          Nat.eqb (List.length d) (List.length e) &&
          (fix entries (d : pydict) {struct d} : bool :=
             match d with
             | [] => true
             | (k, x) :: d' =>
                 match dict_get k e with
                 | Some y => py_eq x y && entries d'
                 | None => false
                 end
             end) d
      | _ => false
      end
  | _ => scalar_eq a b
  end.

(** [a != b]. *)
Definition py_ne (a b : value) : bool := negb (py_eq a b).

(** [a is True], [a is False]. *)
Definition is_True (v : value) : bool :=
  match v with VBool true => true | _ => false end.

Definition is_False (v : value) : bool :=
  match v with VBool false => true | _ => false end.

(** Substring test, [t in s] on strings. *)
Fixpoint str_contains (t s : string) : bool :=
  String.prefix t s
  || match s with
     | EmptyString => false
     | String _ s' => str_contains t s'
     end.

(** [x in c]. *)
Definition py_in (x c : value) : outcome bool :=
  match c with
  | VStr s =>
      match x with
      | VStr t => Ret (str_contains t s)
      | _ => Raise TypeError
      end
  | VList l => Ret (existsb (fun y => py_eq y x) l)
  | VDict d =>
      if hashable x
      then Ret (match dict_get x d with Some _ => true | None => false end)
      else Raise TypeError
  | _ => Raise TypeError
  end.

(** [x not in c]. *)
Definition py_not_in (x c : value) : outcome bool :=
  obind (py_in x c) (fun b => Ret (negb b)).

(** The four ordering operators. *)
Inductive ordop : Type := OpGt | OpGe | OpLt | OpLe.

Definition ord_Z (op : ordop) (x y : Z) : bool :=
  match op with
  | OpGt => Z.ltb y x
  | OpGe => Z.leb y x
  | OpLt => Z.ltb x y
  | OpLe => Z.leb x y
  end.

Definition ord_str (op : ordop) (s t : string) : bool :=
  match op with
  | OpGt => String.ltb t s
  | OpGe => String.leb t s
  | OpLt => String.ltb s t
  | OpLe => String.leb s t
  end.

(** Lists order lexicographically: the first pair of unequal items
    decides, with the operator itself; a proper prefix is smaller. *)
Fixpoint py_ord (op : ordop) (a b : value) {struct a} : outcome bool :=
  match a with
  | VBool x =>
      match b with
      | VBool y => Ret (ord_Z op (bool_int x) (bool_int y))
      | VInt y => Ret (ord_Z op (bool_int x) y)
      | _ => Raise TypeError
      end
  | VInt x =>
      match b with
      | VBool y => Ret (ord_Z op x (bool_int y))
      | VInt y => Ret (ord_Z op x y)
      | _ => Raise TypeError
      end
  | VStr s =>
      match b with
      | VStr t => Ret (ord_str op s t)
      | _ => Raise TypeError
      end
  | VList l =>
      match b with
      | VList m =>
          (fix items (l m : list value) {struct l} : outcome bool :=
             match l, m with
             | [], [] => Ret (ord_Z op 0 0)
             | [], _ :: _ => Ret (ord_Z op 0 1)
             | _ :: _, [] => Ret (ord_Z op 1 0)
             | x :: l', y :: m' =>
                 if py_eq x y then items l' m' else py_ord op x y
             end) l m
      | _ => Raise TypeError
      end
  | _ => Raise TypeError
  end.

(* ------------------------------------------------------------------ *)
(** ** Rendering: [str(x)], [repr(x)] and [format] *)
(* ------------------------------------------------------------------ *)

Definition str_of_Z (z : Z) : string := NilZero.string_of_int (Z.to_int z).

Definition hex_digit (n : N) : ascii :=
  match n with
  | 0%N => "0" | 1%N => "1" | 2%N => "2" | 3%N => "3" | 4%N => "4"
  | 5%N => "5" | 6%N => "6" | 7%N => "7" | 8%N => "8" | 9%N => "9"
  | 10%N => "a" | 11%N => "b" | 12%N => "c" | 13%N => "d" | 14%N => "e"
  | _ => "f"
  end%char.

Definition hex_escape (c : ascii) : string :=
  let n := N_of_ascii c in
  String "\" (String "x"
    (String (hex_digit (N.div n 16)) (String (hex_digit (N.modulo n 16)) EmptyString))).

(** Code points below 256 that [repr] shows as they are. *)
Definition printable (c : ascii) : bool :=
  let n := N_of_ascii c in
  N.leb 32 n && N.leb n 126 || N.leb 161 n && negb (N.eqb n 173).

Fixpoint str_has (c : ascii) (s : string) : bool :=
  match s with
  | EmptyString => false
  | String c' s' => Ascii.eqb c c' || str_has c s'
  end.

Definition squote : ascii := "'"%char.
Definition dquote : ascii := "034"%char.
Definition backslash : ascii := "\"%char.

Fixpoint repr_chars (q : ascii) (s : string) : string :=
  match s with
  | EmptyString => EmptyString
  | String c s' =>
      (if Ascii.eqb c q || Ascii.eqb c backslash
       then String backslash (String c EmptyString)
       else if Ascii.eqb c "009"%char then String backslash "t"
       else if Ascii.eqb c "010"%char then String backslash "n"
       else if Ascii.eqb c "013"%char then String backslash "r"
       else if printable c then String c EmptyString
       else hex_escape c)
      ++ repr_chars q s'
  end.

(** [repr] of a string: single quotes, unless the text has a single
    quote and no double quote. *)
Definition repr_str (s : string) : string :=
  let q := if str_has squote s && negb (str_has dquote s)
           then dquote else squote in
  String q (repr_chars q s ++ String q EmptyString).

(** [render false] is [str], [render true] is [repr]; items of a
    container are always shown with [repr].  [str] of an exception
    object is [str] of its single argument ([repr] of it for a
    [KeyError]), and of the tuple of its arguments when there are
    several. *)
Fixpoint render (as_repr : bool) (v : value) {struct v} : string :=
  match v with
  | VNone => "None"
  | VBool true => "True"
  | VBool false => "False"
  | VInt z => str_of_Z z
  | VStr s => if as_repr then repr_str s else s
  | VList l => "[" ++ String.concat ", " (map (render true) l) ++ "]"
  | VDict d =>
      "{" ++ String.concat ", "
               (map (fun kv : value * value =>
                       let (k, x) := kv in
                       render true k ++ ": " ++ render true x) d)
          ++ "}"
  | VExc _ cls args =>
      if as_repr
      then cls ++ "(" ++ String.concat ", " (map (render true) args) ++ ")"
      else match args with
           | [] => EmptyString
           | [a] => render (String.eqb cls "KeyError") a
           | _ => "(" ++ String.concat ", " (map (render true) args) ++ ")"
           end
  end.

Definition py_str (v : value) : string := render false v.
Definition py_repr (v : value) : string := render true v.

(** [str(err)] of an exception in flight. *)
Definition exc_str (e : exc) : string :=
  py_str (VExc 0 (exc_class e) (exc_args e)).

(* ------------------------------------------------------------------ *)
(** ** Constructors of the built-in types: [t(x)] *)
(* ------------------------------------------------------------------ *)

(** White space that [int] strips, among the code points below 256. *)
Definition is_space (c : ascii) : bool :=
  let n := N_of_ascii c in
  N.leb 9 n && N.leb n 13 || N.leb 28 n && N.leb n 32
  || N.eqb n 133 || N.eqb n 160.

Definition digit_of (c : ascii) : option Z :=
  let n := N_of_ascii c in
  if N.leb 48 n && N.leb n 57 then Some (Z.of_N n - 48) else None.

Fixpoint lstrip (l : list ascii) : list ascii :=
  match l with
  | c :: r => if is_space c then lstrip r else l
  | [] => []
  end.

Definition strip (l : list ascii) : list ascii :=
  rev (lstrip (rev (lstrip l))).

(** Decimal digits, a single underscore allowed between two digits. *)
Fixpoint digits (after_digit : bool) (acc : Z) (l : list ascii)
  : option Z :=
  match l with
  | [] => if after_digit then Some acc else None
  | c :: r =>
      match digit_of c with
      | Some d => digits true (10 * acc + d) r
      | None =>
          if Ascii.eqb c "_"%char && after_digit
          then digits false acc r
          else None
      end
  end.

(** [int(s)] for a string [s], base 10. *)
Definition parse_int (s : string) : option Z :=
  match strip (list_ascii_of_string s) with
  | c :: r =>
      if Ascii.eqb c "-"%char then option_map Z.opp (digits false 0 r)
      else if Ascii.eqb c "+"%char then digits false 0 r
      else digits false 0 (c :: r)
  | [] => None
  end.

Fixpoint chars (s : string) : list value :=
  match s with
  | EmptyString => []
  | String c r => VStr (String c EmptyString) :: chars r
  end.

(** Iterating an object: the items of a list, the characters of a
    string, the keys of a dict. *)
Definition py_iter (v : value) : outcome (list value) :=
  match v with
  | VList l => Ret l
  | VStr s => Ret (chars s)
  | VDict d => Ret (dict_keys d)
  | _ => Raise TypeError
  end.

(** [dict(x)] for an iterable [x]: every item must itself iterate to
    exactly a key and a value, and the key must be hashable. *)
Fixpoint dict_of_items (items : list value) (acc : pydict)
  : outcome pydict :=
  match items with
  | [] => Ret acc
  | it :: r =>
      match py_iter it with
      | Ret [k; v] =>
          if hashable k then dict_of_items r (dict_set k v acc)
          else Raise TypeError
      | Ret _ => Raise ValueError
      | Raise e => Raise e
      end
  end.

(** [t(x)].  [fresh] is the identity given to the object when [t] is an
    exception class. *)
Definition py_construct (fresh : nat) (t : pytype) (x : value)
  : outcome value :=
  match t with
  | TNone => Raise TypeError
  | TBool => Ret (VBool (py_truthy x))
  | TInt =>
      match x with
      | VBool b => Ret (VInt (bool_int b))
      | VInt z => Ret (VInt z)
      | VStr s =>
          match parse_int s with
          | Some z => Ret (VInt z)
          | None => Raise ValueError
          end
      | _ => Raise TypeError
      end
  | TStr => Ret (VStr (py_str x))
  | TList => obind (py_iter x) (fun l => Ret (VList l))
  | TDict =>
      match x with
      | VDict d => Ret (VDict d)
      | _ => obind (py_iter x) (fun items =>
             obind (dict_of_items items []) (fun d => Ret (VDict d)))
      end
  | TExc cls => Ret (VExc fresh cls [x])
  end.

(* ================================================================== *)
(** * The world: calls made to the minion, identities handed out *)
(* ================================================================== *)

(** One call [salt_lc.function(fun, *args, **kwargs)]. *)
Record call : Type := mkCall {
  call_fun : value;
  call_args : list value;
  call_kwargs : list (string * value)
}.

Record world : Type := mkWorld {
  calls : list call;       (* oldest first *)
  next_oid : nat           (* identity of the next exception object *)
}.

(** A computation may raise, and keeps the effects it had until then. *)
Definition M (A : Type) : Type := world -> outcome A * world.

Definition ret {A : Type} (a : A) : M A := fun w => (Ret a, w).

Definition raise {A : Type} (e : exc) : M A := fun w => (Raise e, w).

Definition lift {A : Type} (o : outcome A) : M A := fun w => (o, w).

Definition bind {A B : Type} (c : M A) (f : A -> M B) : M B :=
  fun w =>
    match c w with
    | (Ret a, w') => f a w'
    | (Raise e, w') => (Raise e, w')
    end.

Notation "x <- c ;; k" := (bind c (fun x => k))
  (at level 61, c at next level, right associativity).

(** [try: body / except <classes> as err: handler(err)]: the exception
    object gets its identity when it is caught. *)
Definition try_except {A : Type} (body : M A) (catches : string -> bool)
  (handler : value -> M A) : M A :=
  fun w =>
    match body w with
    | (Raise e, w') =>
        if catches (exc_class e)
        then handler (VExc (next_oid w') (exc_class e) (exc_args e))
               (mkWorld (calls w') (S (next_oid w')))
        else (Raise e, w')
    | r => r
    end.

(** Classes that derive from [BaseException] and not from [Exception]. *)
Definition is_Exception (cls : string) : bool :=
  negb (existsb (String.eqb cls)
          ["BaseException"; "SystemExit"; "KeyboardInterrupt";
           "GeneratorExit"]).

(* ================================================================== *)
(** * Assertion evaluators (static methods of [SaltCheck]) *)
(* ================================================================== *)

(** [assert cond, msg]. *)
Definition py_assert (cond : outcome bool) (msg : string) : outcome unit :=
  match cond with
  | Ret true => Ret tt
  | Ret false => Raise (AssertionError msg)
  | Raise e => Raise e
  end.

(** [result = True / try: body / except AssertionError as err:
    result = "False: " + str(err) / return result]. *)
Definition except_AssertionError (body : outcome unit) : outcome value :=
  match body with
  | Ret _ => Ret (VBool true)
  | Raise e =>
      if String.eqb (exc_class e) "AssertionError"
      then Ret (VStr ("False: " ++ exc_str e))
      else Raise e
  end.

Definition assert_equal (expected returned : value) : outcome value :=
  except_AssertionError
    (py_assert (Ret (py_eq expected returned))
       (py_str expected ++ " is not equal to " ++ py_str returned)).

Definition assert_not_equal (expected returned : value) : outcome value :=
  except_AssertionError
    (py_assert (Ret (py_ne expected returned))
       (py_str expected ++ " is equal to " ++ py_str returned)).

Definition assert_true (returned : value) : outcome value :=
  except_AssertionError
    (py_assert (Ret (is_True returned)) (py_str returned ++ " not True")).

Definition assert_in (expected returned : value) : outcome value :=
  except_AssertionError
    (py_assert (py_in expected returned) (py_str returned ++ " not False")).

Definition assert_not_in (expected returned : value) : outcome value :=
  except_AssertionError
    (py_assert (py_not_in expected returned)
       (py_str returned ++ " not False")).

Definition assert_greater (expected returned : value) : outcome value :=
  except_AssertionError
    (py_assert (py_ord OpGt expected returned)
       (py_str returned ++ " not False")).

Definition assert_greater_equal (expected returned : value)
  : outcome value :=
  except_AssertionError
    (py_assert (py_ord OpGe expected returned)
       (py_str returned ++ " not False")).

Definition assert_less (expected returned : value) : outcome value :=
  except_AssertionError
    (py_assert (py_ord OpLt expected returned)
       (py_str returned ++ " not False")).

Definition assert_less_equal (expected returned : value) : outcome value :=
  except_AssertionError
    (py_assert (py_ord OpLe expected returned)
       (py_str returned ++ " not False")).

(** What an evaluator hands back as a test result: [True], or a string
    that starts with ["False: "]. *)
Definition is_TestResult (v : value) : Prop :=
  v = VBool true \/ exists detail, v = VStr ("False: " ++ detail).

Section Evaluation.

(** [eval(text)]: the interpreter's expression evaluator. *)
Variable py_eval : string -> outcome value.

Definition assert_false (returned : value) : outcome value :=
  obind (match returned with
         | VStr s => py_eval s
         | _ => Ret returned
         end) (fun returned =>
  except_AssertionError
    (py_assert (Ret (is_False returned)) (py_str returned ++ " not False"))).

End Evaluation.

(* ================================================================== *)
(** * Class [SaltCheck] *)
(* ================================================================== *)

(** [d.get(key, None)] and [d[key]] with a string key. *)
Definition dict_get_or_None (key : string) (d : pydict) : value :=
  match dict_get (VStr key) d with
  | Some v => v
  | None => VNone
  end.

Definition dict_getitem (key : string) (d : pydict) : outcome value :=
  match dict_get (VStr key) d with
  | Some v => Ret v
  | None => Raise (KeyError (VStr key))
  end.

(** [s.split(c)] for a one-character separator. *)
Fixpoint split_on (c : ascii) (s : string) : list string :=
  match s with
  | EmptyString => [EmptyString]
  | String a r =>
      if Ascii.eqb a c then EmptyString :: split_on c r
      else match split_on c r with
           | h :: t => String a h :: t
           | [] => [String a EmptyString]
           end
  end.

Definition split_dot (s : string) : list string := split_on "."%char s.

(** [x.split('.')]: only strings have the method. *)
Definition py_split_dot (x : value) : outcome (list string) :=
  match x with
  | VStr s => Ret (split_dot s)
  | _ => Raise AttributeError
  end.

(** [a, b = parts]. *)
Definition unpack2 (parts : list string) : outcome (string * string) :=
  match parts with
  | [a; b] => Ret (a, b)
  | _ => Raise ValueError
  end.

(** [**kwargs]: a dict whose keys are all strings. *)
Fixpoint keywords (d : pydict) : outcome (list (string * value)) :=
  match d with
  | [] => Ret []
  | (VStr k, v) :: r => obind (keywords r) (fun kw => Ret ((k, v) :: kw))
  | _ => Raise TypeError
  end.

Definition unpack_kwargs (kwargs : value)
  : outcome (list (string * value)) :=
  match kwargs with
  | VDict d => keywords d
  | _ => Raise TypeError
  end.

Record SaltCheck : Type := mkSaltCheck {
  opts : pydict;
  assertions_list : list value;
  modules : value
}.

Section Minion.

Variable py_eval : string -> outcome value.

(** Whether a class derives from [salt.exceptions.SaltException]. *)
Variable is_SaltException : string -> bool.

(** The minion: what [salt_lc.function] answers to a call, given the
    calls made before it. *)
Variable salt_function : list call -> call -> outcome value.

(** The module-level [__opts__] that salt's loader injects. *)
Variable dunder_opts : pydict.

(** [self.salt_lc.function(fun, *star, **starstar)]: the arguments are
    unpacked, the call is recorded, the minion answers. *)
Definition salt_lc_function (fn : value) (star starstar : option value)
  : M value :=
  pos <- lift (match star with
               | Some a => py_iter a
               | None => Ret []
               end) ;;
  kw <- lift (match starstar with
              | Some k => unpack_kwargs k
              | None => Ret []
              end) ;;
  fun w =>
    let c := mkCall fn pos kw in
    (salt_function (calls w) c, mkWorld (calls w ++ [c])%list (next_oid w)).

(** Generic call of salt Caller command. *)
Definition call_salt_command (fn args kwargs : value) : M value :=
  try_except
    (if py_truthy args && py_truthy kwargs
     then salt_lc_function fn (Some args) (Some kwargs)
     else if py_truthy args && negb (py_truthy kwargs)
     then salt_lc_function fn (Some args) None
     else if negb (py_truthy args) && py_truthy kwargs
     then salt_lc_function fn None (Some kwargs)
     else salt_lc_function fn None None)
    (fun cls => is_SaltException cls || is_Exception cls)
    (fun err => ret err).

(** Return a list of all modules available on minion. *)
Definition populate_salt_modules_list : M value :=
  call_salt_command (VStr "sys.list_modules") VNone VNone.

(** [SaltCheck(opts)]. *)
Definition SaltCheck_init (o : option pydict) : M SaltCheck :=
  let self_opts :=
    match o with
    | Some (e :: r) => e :: r
    | _ => dunder_opts
    end in
  mods <- populate_salt_modules_list ;;
  ret (mkSaltCheck self_opts
         (map VStr ["assertEqual"; "assertNotEqual";
                    "assertTrue"; "assertFalse";
                    "assertIn"; "assertGreater";
                    "assertGreaterEqual";
                    "assertLess"; "assertLessEqual"])
         mods).

Variable self : SaltCheck.

(** Determines if a module is valid on a minion. *)
Definition is_valid_module (module_name : string) : outcome bool :=
  obind (py_not_in (VStr module_name) (modules self)) (fun absent =>
  if absent then Ret false else Ret true).

(** Determine if a function is valid for a module. *)
Definition is_valid_function (module_name function : string) : M bool :=
  functions <-
    try_except
      (call_salt_command (VStr "sys.list_functions")
         (VList [VStr module_name]) VNone)
      is_SaltException
      (fun _ => ret (VList [VStr "unable to look up functions"])) ;;
  lift (py_in (VStr (module_name ++ "." ++ function)) functions).

(** Determine if a test contains a valid module and function, a valid
    assertion, an expected return value. *)
Definition is_valid_test (test_dict : pydict) : M bool :=
  let tots := 0%Z in
  let m_and_f := dict_get_or_None "module_and_function" test_dict in
  let assertion := dict_get_or_None "assertion" test_dict in
  let expected_return := dict_get_or_None "expected-return" test_dict in
  tots <-
    (if py_truthy m_and_f then
       let tots := (tots + 1)%Z in
       parts <- lift (py_split_dot m_and_f) ;;
       mf <- lift (unpack2 parts) ;;
       let (module, function) := mf : string * string in
       ok_module <- lift (is_valid_module module) ;;
       let tots := if ok_module then (tots + 1)%Z else tots in
       ok_function <- is_valid_function module function ;;
       let tots := if ok_function then (tots + 1)%Z else tots in
       ret tots
     else ret tots) ;;
  tots <-
    (if py_truthy assertion then
       let tots := (tots + 1)%Z in
       known <- lift (py_in assertion (VList (assertions_list self))) ;;
       let tots := if known then (tots + 1)%Z else tots in
       ret tots
     else ret tots) ;;
  let tots := if py_truthy expected_return then (tots + 1)%Z else tots in
  ret (Z.leb 6 tots).

(** Cast the expected to the type of variable returned. *)
Definition cast_expected_to_returned_type (expected returned : value)
  : M value :=
  let ret_type := type_of returned in
  let new_expected := expected in
  let expected' :=
    if py_eq expected (VStr "False") && pytype_eqb ret_type TBool
    then VBool false else expected in
  fun w =>
    match py_construct (next_oid w) ret_type expected' with
    | Ret v =>
        (Ret v, match ret_type with
                | TExc _ => mkWorld (calls w) (S (next_oid w))
                | _ => w
                end)
    | Raise _ => (Ret new_expected, w)
    end.

(** Run a single salt_check test. *)
Definition run_test (test_dict : pydict) : M value :=
  valid <- is_valid_test test_dict ;;
  if valid then
    mod_and_func <- lift (dict_getitem "module_and_function" test_dict) ;;
    let args := dict_get_or_None "args" test_dict in
    assertion <- lift (dict_getitem "assertion" test_dict) ;;
    expected_return <- lift (dict_getitem "expected-return" test_dict) ;;
    let kwargs := dict_get_or_None "kwargs" test_dict in
    actual_return <- call_salt_command mod_and_func args kwargs ;;
    expected_return <-
      cast_expected_to_returned_type expected_return actual_return ;;
    if py_eq assertion (VStr "assertEqual") then
      lift (assert_equal expected_return actual_return)
    else if py_eq assertion (VStr "assertNotEqual") then
      lift (assert_not_equal expected_return actual_return)
    else if py_eq assertion (VStr "assertTrue") then
      lift (assert_true expected_return)
    else if py_eq assertion (VStr "assertFalse") then
      lift (assert_false py_eval expected_return)
    else if py_eq assertion (VStr "assertIn") then
      lift (assert_in expected_return actual_return)
    else if py_eq assertion (VStr "assertNotIn") then
      lift (assert_not_in expected_return actual_return)
    else if py_eq assertion (VStr "assertGreater") then
      lift (assert_greater expected_return actual_return)
    else if py_eq assertion (VStr "assertGreaterEqual") then
      lift (assert_greater_equal expected_return actual_return)
    else if py_eq assertion (VStr "assertLess") then
      lift (assert_less expected_return actual_return)
    else if py_eq assertion (VStr "assertLessEqual") then
      lift (assert_less_equal expected_return actual_return)
    else ret (VBool false)
  else ret (VStr "False: Invalid test").

End Minion.

(* ================================================================== *)
(** * State search paths and class [StateTestLoader] *)
(* ================================================================== *)

Definition os_sep : string := "/".

(** [a + b] where one side is known to be a string. *)
Definition py_add_str (a b : value) : outcome value :=
  match a, b with
  | VStr s, VStr t => Ret (VStr (s ++ t))
  | _, _ => Raise TypeError
  end.

Definition as_path (v : value) : outcome string :=
  match v with
  | VStr s => Ret s
  | _ => Raise TypeError
  end.

(** For the state file system, return a list of paths to search for
    states. *)
Definition get_state_search_path_list (self : SaltCheck)
  : outcome (list string) :=
  let search_list := [] in
  let cachedir := dict_get_or_None "cachedir" (opts self) in
  obind (dict_getitem "environment" (opts self)) (fun environment =>
  obind (if py_truthy environment then
           obind (py_add_str cachedir (VStr os_sep)) (fun p =>
           obind (py_add_str p (VStr "files")) (fun p =>
           obind (py_add_str p (VStr os_sep)) (fun p =>
           obind (py_add_str p environment) (fun p =>
           obind (as_path p) (fun path =>
           Ret (search_list ++ [path])%list)))))
         else Ret search_list) (fun search_list =>
  obind (py_add_str cachedir (VStr os_sep)) (fun p =>
  obind (py_add_str p (VStr "files")) (fun p =>
  obind (py_add_str p (VStr os_sep)) (fun p =>
  obind (py_add_str p (VStr "base")) (fun p =>
  obind (as_path p) (fun path =>
  Ret (search_list ++ [path])%list))))))).

Record StateTestLoader : Type := mkLoader {
  search_paths : list string;
  test_files : list string;
  test_dict : pydict
}.

Definition StateTestLoader_init (paths : list string) : StateTestLoader :=
  mkLoader paths [] [].

(** [s.endswith(suffix)]. *)
Definition endswith (s suffix : string) : bool :=
  let n := String.length s in
  let m := String.length suffix in
  Nat.leb m n && String.eqb (String.substring (n - m) m s) suffix.

(** [s.split(os.sep)[-1]]. *)
Definition last_component (s : string) : string :=
  List.last (split_on "/"%char s) EmptyString.

Section FileSystem.

(** [os.walk(top)], top-down: the directories under [top], each with the
    names of its sub-directories and of its files. *)
Variable os_walk : string -> list (string * list string * list string).

(** [yaml.load(open(path, 'r'))]. *)
Variable load_yaml : string -> outcome value.

Variable os_path_abspath : string -> string.

(** Loads in one test file. *)
Definition load_file (stl : StateTestLoader) (filepath : string)
  : outcome StateTestLoader :=
  obind (load_yaml filepath) (fun contents_yaml =>
  match contents_yaml with
  | VDict items =>
      Ret (mkLoader (search_paths stl) (test_files stl)
             (fold_left (fun d kv => dict_set (fst kv) (snd kv) d)
                items (test_dict stl)))
  | _ => Raise AttributeError
  end).

(** Load tests either from one file, or a set of files. *)
Definition load_test_suite (stl : StateTestLoader)
  : outcome StateTestLoader :=
  fold_left (fun acc myfile => obind acc (fun stl => load_file stl myfile))
    (test_files stl) (Ret stl).

(** Gather files for a test suite. *)
Definition gather_files (stl : StateTestLoader) (filepath : value)
  : outcome StateTestLoader :=
  obind (py_add_str filepath (VStr os_sep)) (fun p =>
  obind (py_add_str p (VStr "salt-check-tests")) (fun p =>
  obind (as_path p) (fun rootDir =>
  Ret (mkLoader (search_paths stl)
         (fold_left
            (fun files (entry : string * list string * list string) =>
               let '(dirName, _, fileList) := entry in
               fold_left
                 (fun files fname =>
                    if endswith fname ".tst"
                    then (files ++
                          [os_path_abspath (dirName ++ os_sep ++ fname)])%list
                    else files)
                 fileList files)
            (os_walk rootDir) (test_files stl))
         (test_dict stl))))).

(** The first directory of a walk that is named like the state and holds
    a [salt-check-tests] sub-directory. *)
Fixpoint first_state_dir (state_name : value)
  (walk : list (string * list string * list string)) : option string :=
  match walk with
  | [] => None
  | (dirName, subdirList, _) :: rest =>
      let mydir := last_component dirName in
      if py_eq state_name (VStr mydir)
         && existsb (String.eqb "salt-check-tests") subdirList
      then Some dirName
      else first_state_dir state_name rest
  end.

(** Find and return the path to the state dir. *)
Fixpoint find_in_paths (state_name : value) (paths : list string) : value :=
  match paths with
  | [] => VNone
  | path :: rest =>
      match first_state_dir state_name (os_walk path) with
      | Some dirName => VStr dirName
      | None => find_in_paths state_name rest
      end
  end.

Definition find_state_dir (stl : StateTestLoader) (state_name : value)
  : value :=
  find_in_paths state_name (search_paths stl).


Section EntryPoints.

Variable py_eval : string -> outcome value.
Variable is_SaltException : string -> bool.
Variable salt_function : list call -> call -> outcome value.
Variable dunder_opts : pydict.

(** Given a path to the state files, gather the list of test files under
    the salt-check-test subdir. *)
Definition _get_test_files (state_name : value) : M (list string) :=
  salt_check <- SaltCheck_init is_SaltException salt_function dunder_opts
                  None ;;
  paths <- lift (get_state_search_path_list salt_check) ;;
  let stl := StateTestLoader_init paths in
  let mydir := find_state_dir stl state_name in
  stl <- lift (gather_files stl mydir) ;;
  ret (test_files stl).

(** [scheck.run_test(value)] on an entry of the merged collection: only
    a dict has the [get] that [is_valid_test] starts with. *)
Definition run_test_on (scheck : SaltCheck) (v : value) : M value :=
  match v with
  | VDict d => run_test py_eval is_SaltException salt_function scheck d
  | _ => raise AttributeError
  end.

(** The loop of [run_state_tests] over the merged collection. *)
Fixpoint run_all (scheck : SaltCheck) (tests : pydict)
  (results_dict : pydict) : M pydict :=
  match tests with
  | [] => ret results_dict
  | (key, v) :: rest =>
      result <- run_test_on scheck v ;;
      run_all scheck rest (dict_set key result results_dict)
  end.

(** Runs tests for one state. *)
Definition run_state_tests (state_name : value) : M value :=
  let results_dict := [] in
  if negb (py_truthy state_name) then ret (VStr "State name required")
  else
    scheck <- SaltCheck_init is_SaltException salt_function dunder_opts
                None ;;
    paths <- lift (get_state_search_path_list scheck) ;;
    let stl := StateTestLoader_init paths in
    let mydir := find_state_dir stl state_name in
    results_dict <-
      (if py_truthy mydir then
         stl <- lift (gather_files stl mydir) ;;
         _ <- _get_test_files state_name ;;
         stl <- lift (load_test_suite stl) ;;
         run_all scheck (test_dict stl) []
       else ret results_dict) ;;
    if hashable state_name
    then ret (VDict [(state_name, VDict results_dict)])
    else raise TypeError.

End EntryPoints.

End FileSystem.

(* ================================================================== *)
(** * Representation invariant, and a sample minion *)
(* ================================================================== *)

Fixpoint distinct_keys (ks : list value) : bool :=
  match ks with
  | [] => true
  | k :: r => negb (existsb (scalar_eq k) r) && distinct_keys r
  end.


(** An evaluator that agrees with [eval] on the texts [True], [False]
    and [None], and on a name that is not bound, such as [garbage]. *)
Definition eval_names (s : string) : outcome value :=
  if String.eqb s "True" then Ret (VBool true)
  else if String.eqb s "False" then Ret (VBool false)
  else if String.eqb s "None" then Ret VNone
  else Raise (mkExc "NameError" []).

(** A minion with one module, [test], that has [test.echo] and
    [test.ping]; any other function is refused. *)
Definition test_minion (history : list call) (c : call) : outcome value :=
  match call_fun c with
  | VStr f =>
      if String.eqb f "sys.list_modules" then Ret (VList [VStr "test"])
      else if String.eqb f "sys.list_functions" then
        match call_args c with
        | [VStr "test"] => Ret (VList [VStr "test.echo"; VStr "test.ping"])
        | _ => Ret (VList [])
        end
      else if String.eqb f "test.echo" then
        match call_args c with
        | [text] => Ret text
        | _ => Raise TypeError
        end
      else if String.eqb f "test.ping" then Ret (VBool true)
      else Raise (mkExc "CommandExecutionError" [VStr f])
  | _ => Raise TypeError
  end.

Definition no_SaltException (cls : string) : bool := false.

Definition world0 : world := mkWorld [] 0.

(** The [SaltCheck] object that [SaltCheck()] builds on [test_minion]. *)
Definition test_scheck : SaltCheck :=
  mkSaltCheck []
    (map VStr ["assertEqual"; "assertNotEqual"; "assertTrue"; "assertFalse";
               "assertIn"; "assertGreater"; "assertGreaterEqual";
               "assertLess"; "assertLessEqual"])
    (VList [VStr "test"]).

(** A declaration in the shape of the file format. *)
Definition declaration (m_and_f : value) (args : value) (assertion : value)
  (expected : value) : pydict :=
  [(VStr "module_and_function", m_and_f); (VStr "args", args);
   (VStr "assertion", assertion); (VStr "expected-return", expected)].

(** How an evaluator relates to its predicate: a predicate that yields a
    truth value gives a test result, one that raises lets the exception
    through. *)
Definition evaluates (predicate : outcome bool) (result : outcome value)
  : Prop :=
  match predicate with
  | Ret _ => exists r, result = Ret r /\ is_TestResult r
  | Raise e => result = Raise e
  end.

(** The validation conditions as the specification lists them: the
    target operation is present and splits into exactly a namespace and
    an operation name, the namespace is registered, the operation is
    registered in it, the assertion is present and recognized, and the
    expected value is present. *)
Definition declared_valid (is_SaltException : string -> bool)
  (salt_function : list call -> call -> outcome value)
  (self : SaltCheck) (test_dict : pydict) (w : world) : Prop :=
  exists m_and_f module function,
    dict_get_or_None "module_and_function" test_dict = VStr m_and_f /\
    split_dot m_and_f = [module; function] /\
    py_in (VStr module) (modules self) = Ret true /\
    (exists functions w',
       call_salt_command is_SaltException salt_function
         (VStr "sys.list_functions") (VList [VStr module]) VNone w
       = (Ret functions, w') /\
       py_in (VStr (module ++ "." ++ function)) functions = Ret true) /\
    dict_get_or_None "assertion" test_dict <> VNone /\
    py_in (dict_get_or_None "assertion" test_dict)
      (VList (assertions_list self)) = Ret true /\
    dict_get_or_None "expected-return" test_dict <> VNone.

(** The body that the last file defining [name] gives it, the files
    taken in discovery order. *)
Fixpoint last_definition (name : value) (contents : list pydict)
  : option value :=
  match contents with
  | [] => None
  | c :: later =>
      match last_definition name later with
      | Some body => Some body
      | None => dict_get name c
      end
  end.

(* ------------------------------------------------------------------ *)
(** ** A sample file tree *)
(* ------------------------------------------------------------------ *)

(** Minion options: cache under [/srv/cache], no named environment. *)
Definition sample_opts : pydict :=
  [(VStr "cachedir", VStr "/srv/cache"); (VStr "environment", VNone)].

Definition base_dir : string := "/srv/cache/files/base".

(** Two states under [base]: [apache], with the test files [1.tst] and
    [2.tst] (and a file that is no test file), and [broken], whose only
    test file does not parse. *)
Definition sample_walk (top : string)
  : list (string * list string * list string) :=
  if String.eqb top base_dir then
    [(base_dir, ["apache"; "broken"], ["top.sls"]);
     (base_dir ++ "/apache", ["salt-check-tests"], ["init.sls"]);
     (base_dir ++ "/apache/salt-check-tests", [],
      ["1.tst"; "2.tst"; "notes.txt"]);
     (base_dir ++ "/broken", ["salt-check-tests"], []);
     (base_dir ++ "/broken/salt-check-tests", [], ["bad.tst"])]
  else if String.eqb top (base_dir ++ "/apache/salt-check-tests") then
    [(base_dir ++ "/apache/salt-check-tests", [],
      ["1.tst"; "2.tst"; "notes.txt"])]
  else if String.eqb top (base_dir ++ "/broken/salt-check-tests") then
    [(base_dir ++ "/broken/salt-check-tests", [], ["bad.tst"])]
  else [].

Definition file_1 : pydict :=
  [(VStr "dup",
    VDict (declaration (VStr "test.echo") (VList [VStr "a"])
             (VStr "assertEqual") (VStr "a")));
   (VStr "ping",
    VDict (declaration (VStr "test.ping") VNone
             (VStr "assertTrue") (VBool true)))].

Definition file_2 : pydict :=
  [(VStr "dup",
    VDict (declaration (VStr "test.echo") (VList [VStr "b"])
             (VStr "assertEqual") (VStr "c")))].

Definition sample_load (path : string) : outcome value :=
  if String.eqb path (base_dir ++ "/apache/salt-check-tests/1.tst")
  then Ret (VDict file_1)
  else if String.eqb path (base_dir ++ "/apache/salt-check-tests/2.tst")
  then Ret (VDict file_2)
  else if String.eqb path (base_dir ++ "/broken/salt-check-tests/bad.tst")
  then Raise (mkExc "ScannerError" [])
  else Raise (mkExc "FileNotFoundError" []).

(** The paths of the sample tree are absolute and normalized. *)
Definition sample_abspath (path : string) : string := path.

(** The evaluator that the specification pairs with each assertion
    kind; the single-operand kinds take the expected value. *)
Definition evaluator_of (py_eval : string -> outcome value)
  (kind : string) : option (value -> value -> outcome value) :=
  if String.eqb kind "assertEqual" then Some assert_equal
  else if String.eqb kind "assertNotEqual" then Some assert_not_equal
  else if String.eqb kind "assertTrue" then Some (fun e _ => assert_true e)
  else if String.eqb kind "assertFalse"
  then Some (fun e _ => assert_false py_eval e)
  else if String.eqb kind "assertIn" then Some assert_in
  else if String.eqb kind "assertNotIn" then Some assert_not_in
  else if String.eqb kind "assertGreater" then Some assert_greater
  else if String.eqb kind "assertGreaterEqual"
  then Some assert_greater_equal
  else if String.eqb kind "assertLess" then Some assert_less
  else if String.eqb kind "assertLessEqual" then Some assert_less_equal
  else None.

(* ================================================================== *)
(** * The remaining methods of [SaltCheck] and the other entry points *)
(* ================================================================== *)

Definition IndexError : exc := mkExc "IndexError" [].

(** [o[key]] with a string key: only a dict can be indexed by a string. *)
Definition py_getitem_str (o : value) (key : string) : outcome value :=
  match o with
  | VDict d => dict_getitem key d
  | _ => Raise TypeError
  end.

(** [d.update(other)]: the entries of a dict, or else the pairs that
    [other] iterates to. *)
Definition dict_update (d : pydict) (other : value) : outcome pydict :=
  match other with
  | VDict o =>
      Ret (fold_left (fun d kv => dict_set (fst kv) (snd kv) d) o d)
  | _ => obind (py_iter other) (fun items => dict_of_items items d)
  end.

(** The loop of [get_top_states]: the part of each state before its
    first period, kept once, in order of first occurrence. *)
Fixpoint top_level_names (states : list value) (alt_states : list string)
  : outcome (list string) :=
  match states with
  | [] => Ret alt_states
  | state :: rest =>
      obind (py_split_dot state) (fun state_bits =>
      match state_bits with
      | state_name :: _ =>
          top_level_names rest
            (if negb (existsb (String.eqb state_name) alt_states)
             then (alt_states ++ [state_name])%list
             else alt_states)
      | [] => Raise IndexError
      end)
  end.

(** Gather and return minion config options. *)
Definition show_minion_options (self : SaltCheck) : outcome value :=
  obind (dict_getitem "cachedir" (opts self)) (fun cachedir =>
  obind (dict_getitem "root_dir" (opts self)) (fun root_dir =>
  obind (dict_getitem "states_dirs" (opts self)) (fun states_dirs =>
  obind (dict_getitem "environment" (opts self)) (fun environment =>
  obind (dict_getitem "file_roots" (opts self)) (fun file_roots =>
  Ret (VDict [(VStr "cachedir", cachedir);
              (VStr "root_dir", root_dir);
              (VStr "states_dirs", states_dirs);
              (VStr "environment", environment);
              (VStr "file_roots", file_roots)])))))).

(** Return the path of the state dir. *)
Definition get_state_dir (self : SaltCheck) : outcome (list string) :=
  get_state_search_path_list self.

Section MinionCommands.

Variable is_SaltException : string -> bool.
Variable salt_function : list call -> call -> outcome value.
Variable dunder_opts : pydict.

(** Equivalent to a salt cli: salt web cp.cache_master.  The handler
    [except Exception: raise] hands every error on. *)
Definition cache_master_files : M value :=
  returned <- call_salt_command is_SaltException salt_function
                (VStr "cp.cache_master") VNone VNone ;;
  pillar_refresh <- call_salt_command is_SaltException salt_function
                      (VStr "pillar.items") VNone VNone ;;
  ret returned.

(** Equivalent to a salt cli: salt web state.show_top. *)
Definition get_top_states : M (list string) :=
  returned <- call_salt_command is_SaltException salt_function
                (VStr "state.show_top") VNone VNone ;;
  base <- lift (py_getitem_str returned "base") ;;
  states <- lift (py_iter base) ;;
  lift (top_level_names states []).

(** Generic call of salt Caller command, without arguments. *)
Definition call_salt_command_test (fn : value) : M value :=
  try_except (salt_lc_function salt_function fn None None)
    is_SaltException (fun err => ret err).

(** Show the dirs for the top file used for a particular minion. *)
Definition _get_top_states : M (list string) :=
  salt_check <- SaltCheck_init is_SaltException salt_function dunder_opts
                  None ;;
  get_top_states.

(** Updates the master cache onto the minion. *)
Definition update_master_cache : M value :=
  scheck <- SaltCheck_init is_SaltException salt_function dunder_opts
              None ;;
  _ <- cache_master_files ;;
  ret (VBool true).

Section Reports.

Variable os_walk : string -> list (string * list string * list string).
Variable load_yaml : string -> outcome value.
Variable os_path_abspath : string -> string.
Variable py_eval : string -> outcome value.

(** The loop of [run_highstate_tests] over the top states. *)
Fixpoint run_states (states : list string) (return_dict : pydict)
  : M pydict :=
  match states with
  | [] => ret return_dict
  | state :: rest =>
      ret_dict <- run_state_tests os_walk load_yaml os_path_abspath py_eval
                    is_SaltException salt_function dunder_opts
                    (VStr state) ;;
      return_dict <- lift (dict_update return_dict ret_dict) ;;
      run_states rest return_dict
  end.

(** Runs tests for all states included in a highstate. *)
Definition run_highstate_tests : M value :=
  states <- _get_top_states ;;
  return_dict <- run_states states [] ;;
  ret (VDict return_dict).

(** The module-level [run_test], which enables running one test via
    the cli; [kwargs] is the dict of its keyword arguments. *)
Definition run_test_cli (kwargs : pydict) : M value :=
  scheck <- SaltCheck_init is_SaltException salt_function dunder_opts
              None ;;
  let test := dict_get_or_None "test" kwargs in
  match test with
  | VDict d =>
      if py_truthy test
      then run_test py_eval is_SaltException salt_function scheck d
      else ret (VStr "test must be dictionary")
  | _ => ret (VStr "test must be dictionary")
  end.

End Reports.

End MinionCommands.

(** A minion that also answers [state.show_top], [cp.cache_master] and
    [pillar.items]; everything else as [test_minion]. *)
Definition top_minion (history : list call) (c : call) : outcome value :=
  if py_eq (call_fun c) (VStr "state.show_top") then
    Ret (VDict [(VStr "base",
                 VList [VStr "apache"; VStr "apache.vhost_web1";
                        VStr "nginx.conf"])])
  else if py_eq (call_fun c) (VStr "cp.cache_master") then
    Raise (mkExc "CommandExecutionError" [VStr "master unreachable"])
  else if py_eq (call_fun c) (VStr "pillar.items") then Ret (VDict [])
  else test_minion history c.

(* ------------------------------------------------------------------ *)
(** ** Vocabulary of the properties *)
(* ------------------------------------------------------------------ *)

(** The positional and keyword arguments that [call_salt_command]
    passes on: an [args] or [kwargs] that is not a true value is left
    out. *)
Definition star_args (args : value) : outcome (list value) :=
  if py_truthy args then py_iter args else Ret [].

Definition star_kwargs (kwargs : value) : outcome (list (string * value)) :=
  if py_truthy kwargs then unpack_kwargs kwargs else Ret [].

(** A minion whose errors all derive from [Exception]. *)
Definition raises_only_Exceptions
  (salt_function : list call -> call -> outcome value) : Prop :=
  forall history c e,
    salt_function history c = Raise e -> is_Exception (exc_class e) = true.

(** The world after one more call. *)
Definition called (w : world) (c : call) : world :=
  mkWorld (calls w ++ [c])%list (next_oid w).

(** The world after an exception object was given its identity. *)
Definition caught (w : world) : world :=
  mkWorld (calls w) (S (next_oid w)).


(** A minion that exits the process instead of answering. *)
Definition exiting_minion (history : list call) (c : call) : outcome value :=
  Raise (mkExc "SystemExit" [VInt 1]).

(* ================================================================== *)
(** * Properties of the interpreter's operations *)
(* ================================================================== *)






(** The comparisons of the interpreter raise [TypeError] and nothing
    else. *)
Lemma py_in_raises (x c : value) (e : exc) :
  py_in x c = Raise e -> e = TypeError.
Proof.
  destruct c; simpl; try congruence.
  - destruct x; congruence.
  - destruct (hashable x); congruence.
Qed.

Lemma py_not_in_raises (x c : value) (e : exc) :
  py_not_in x c = Raise e -> e = TypeError.
Proof.
  unfold py_not_in. destruct (py_in x c) eqn:E; simpl; [discriminate|].
  intros H; inversion H; subst. eapply py_in_raises; eauto.
Qed.

Lemma py_ord_raises (op : ordop) (a b : value) (e : exc) :
  py_ord op a b = Raise e -> e = TypeError.
Proof.
  revert b.
  induction a as [| x | x | s | l IH | d IH | oid cls args IH]
    using value_induction;
    intros b; simpl; try congruence;
    try (destruct b; congruence).
  destruct b as [| | | | m | |]; try congruence.
  revert m. induction IH as [|x l Hx _ IHl]; intros [|y m]; try congruence.
  destruct (py_eq x y); [apply IHl | apply Hx].
Qed.

(* ================================================================== *)
(** * Properties of the assertion evaluators *)
(* ================================================================== *)

Lemma exc_str_AssertionError (msg : string) :
  exc_str (AssertionError msg) = msg.
Proof. reflexivity. Qed.

(** A guarded [assert] either passes, or fails with its message, or lets
    a [TypeError] through. *)
Lemma guarded_assert (cond : outcome bool) (msg : string) :
  (forall e, cond = Raise e -> e = TypeError) ->
  match cond with
  | Ret true => except_AssertionError (py_assert cond msg) = Ret (VBool true)
  | Ret false =>
      except_AssertionError (py_assert cond msg) = Ret (VStr ("False: " ++ msg))
  | Raise e => except_AssertionError (py_assert cond msg) = Raise e
  end.
Proof.
  intros H. destruct cond as [[|]|e]; try reflexivity.
  rewrite (H e eq_refl). reflexivity.
Qed.

Lemma guarded_assert_evaluates (cond : outcome bool) (msg : string) :
  (forall e, cond = Raise e -> e = TypeError) ->
  evaluates cond (except_AssertionError (py_assert cond msg)).
Proof.
  intros H. pose proof (guarded_assert cond msg H) as G.
  destruct cond as [[|]|e]; simpl; auto.
  - eexists; split; [exact G|]. now left.
  - eexists; split; [exact G|]. right. now eexists.
Qed.



(** C1, as the code has it. Each evaluator returns a test result ([True]
    or a string that starts with [False: ]) whenever its comparison
    yields a truth value; when the comparison itself raises (membership
    in an object that is not a container, ordering of types that have no
    order, [eval] of a string handed to [assert_false]) the evaluator
    hands that exception on to its caller. *)
Theorem evaluators_follow_their_predicate
  (py_eval : string -> outcome value) (a b : value) :
  evaluates (Ret (py_eq a b)) (assert_equal a b) /\
  evaluates (Ret (py_ne a b)) (assert_not_equal a b) /\
  evaluates (Ret (is_True a)) (assert_true a) /\
  match a with
  | VStr s =>
      match py_eval s with
      | Ret v => evaluates (Ret (is_False v)) (assert_false py_eval a)
      | Raise e => assert_false py_eval a = Raise e
      end
  | _ => evaluates (Ret (is_False a)) (assert_false py_eval a)
  end /\
  evaluates (py_in a b) (assert_in a b) /\
  evaluates (py_not_in a b) (assert_not_in a b) /\
  evaluates (py_ord OpGt a b) (assert_greater a b) /\
  evaluates (py_ord OpGe a b) (assert_greater_equal a b) /\
  evaluates (py_ord OpLt a b) (assert_less a b) /\
  evaluates (py_ord OpLe a b) (assert_less_equal a b).
Proof.
  repeat match goal with |- _ /\ _ => split end;
    try (apply guarded_assert_evaluates; intros e H;
         solve [ discriminate
               | eapply py_in_raises; eauto
               | eapply py_not_in_raises; eauto
               | eapply py_ord_raises; eauto ]).
  assert (tail : forall v, evaluates (Ret (is_False v))
            (except_AssertionError
               (py_assert (Ret (is_False v)) (py_str v ++ " not False")))).
  { intros v. apply guarded_assert_evaluates. discriminate. }
  unfold assert_false.
  destruct a as [| x | z | s | l | d | oid cls args];
    try exact (tail _).
  destruct (py_eval s) as [v|e]; [exact (tail v) | reflexivity].
Qed.

(** C1, as stated, fails: a membership test on an integer raises
    [TypeError] out of [assert_in]. *)
Lemma assert_in_lets_TypeError_escape :
  assert_in (VInt 1) (VInt 5) = Raise TypeError /\
  ~ (exists r, assert_in (VInt 1) (VInt 5) = Ret r /\ is_TestResult r).
Proof.
  split; [reflexivity|].
  intros [r [H _]]. discriminate H.
Qed.

(** The other two situations: ordering of types that have no order, and
    a string argument to [assert_false] that is no expression. *)
Example assert_greater_unorderable :
  assert_greater (VInt 1) (VStr "a") = Raise TypeError.
Proof. reflexivity. Qed.

Example assert_false_unbound_name :
  assert_false eval_names (VStr "garbage") = Raise (mkExc "NameError" []).
Proof. reflexivity. Qed.

Example assert_false_of_text_False :
  assert_false eval_names (VStr "False") = Ret (VBool true).
Proof. reflexivity. Qed.

(* ================================================================== *)
(** * Type coercion *)
(* ================================================================== *)

(** C7. [Coerce("5", n)] is the integer 5; [Coerce("True", b)] is the
    boolean true and [Coerce("False", b)] the boolean false; a text that
    is no integer comes back unchanged; no exception escapes the
    coercion, and whenever the constructor of the returned type refuses
    the expected value, that value comes back as it was. *)
Theorem coercion_round_trips :
  (forall z w,
     cast_expected_to_returned_type (VStr "5") (VInt z) w
     = (Ret (VInt 5), w)) /\
  (forall b w,
     cast_expected_to_returned_type (VStr "True") (VBool b) w
     = (Ret (VBool true), w)) /\
  (forall b w,
     cast_expected_to_returned_type (VStr "False") (VBool b) w
     = (Ret (VBool false), w)) /\
  (forall w,
     cast_expected_to_returned_type (VStr "unparsed-garbage") (VInt 0) w
     = (Ret (VStr "unparsed-garbage"), w)) /\
  (forall expected returned w,
     exists v w',
       cast_expected_to_returned_type expected returned w = (Ret v, w')) /\
  (forall expected returned w e,
     py_construct (next_oid w) (type_of returned) expected = Raise e ->
     cast_expected_to_returned_type expected returned w
     = (Ret expected, w)).
Proof.
  repeat match goal with |- _ /\ _ => split end; try reflexivity.
  - intros expected returned w. unfold cast_expected_to_returned_type.
    destruct (py_construct _ _ _); eauto.
  - intros expected returned w e H. unfold cast_expected_to_returned_type.
    destruct (type_of returned) eqn:T;
      try solve [simpl in H; discriminate H];
      unfold pytype_eqb; rewrite andb_false_r; rewrite H; reflexivity.
Qed.

Lemma coercion_round_trips_witness :
  py_construct (next_oid world0) (type_of (VInt 0)) (VStr "unparsed-garbage")
  = Raise ValueError /\
  cast_expected_to_returned_type (VStr "unparsed-garbage") (VInt 0) world0
  = (Ret (VStr "unparsed-garbage"), world0) /\
  cast_expected_to_returned_type (VInt 7) (VList [VInt 1]) world0
  = (Ret (VInt 7), world0).
Proof.
  split; [reflexivity|]. split.
  - apply (proj2 (proj2 (proj2 (proj2 (proj2 coercion_round_trips))))
             (VStr "unparsed-garbage") (VInt 0) world0 ValueError).
    reflexivity.
  - apply (proj2 (proj2 (proj2 (proj2 (proj2 coercion_round_trips))))
             (VInt 7) (VList [VInt 1]) world0 TypeError).
    reflexivity.
Defined.

(** The coercion wraps the expected value when the minion handed back an
    exception object: the new object is not the returned one. *)
Example coercion_to_exception_class :
  cast_expected_to_returned_type (VStr "x") (VExc 0 "SaltException" [VStr "x"])
    (mkWorld [] 1)
  = (Ret (VExc 1 "SaltException" [VStr "x"]), mkWorld [] 2).
Proof. reflexivity. Qed.

(* ================================================================== *)
(** * Validation *)
(* ================================================================== *)

Section Validation.

Variable py_eval : string -> outcome value.
Variable is_SaltException : string -> bool.
Variable salt_function : list call -> call -> outcome value.
Variable dunder_opts : pydict.

(** What [call_salt_command] lets through is no [SaltException]. *)
Lemma call_salt_command_raises fn args kwargs w e w' :
  call_salt_command is_SaltException salt_function fn args kwargs w = (Raise e, w') ->
  is_SaltException (exc_class e) = false.
Proof.
  unfold call_salt_command, try_except.
  match goal with |- context [?body w] => destruct (body w) as [[v|e0] w0] end.
  - discriminate.
  - destruct (is_SaltException (exc_class e0)) eqn:E; simpl.
    + discriminate.
    + destruct (is_Exception (exc_class e0)); [discriminate|].
      intros H; inversion H; subst; exact E.
Qed.

(** The handler of [is_valid_function] is never entered. *)
Lemma is_valid_function_unfold module function w :
  is_valid_function is_SaltException salt_function module function w =
  match call_salt_command is_SaltException salt_function (VStr "sys.list_functions")
          (VList [VStr module]) VNone w with
  | (Ret functions, w') =>
      (py_in (VStr (module ++ "." ++ function)) functions, w')
  | (Raise e, w') => (Raise e, w')
  end.
Proof.
  unfold is_valid_function, bind, try_except, lift.
  destruct (call_salt_command _ _ _ _ _ w) as [[fs|e] w'] eqn:E;
    [reflexivity|].
  now rewrite (call_salt_command_raises _ _ _ _ _ _ E).
Qed.

Lemma is_valid_module_true self module :
  is_valid_module self module = Ret true <->
  py_in (VStr module) (modules self) = Ret true.
Proof.
  unfold is_valid_module, py_not_in.
  destruct (py_in _ _) as [[|]|e]; simpl; split; congruence.
Qed.

Lemma unpack2_Ret parts a b :
  unpack2 parts = Ret (a, b) <-> parts = [a; b].
Proof.
  destruct parts as [|x [|y [|z r]]]; simpl; split; congruence.
Qed.

(** The six points add up to the threshold exactly when every check
    succeeds. *)
Lemma is_valid_test_passes self test_dict w :
  let m_and_f := dict_get_or_None "module_and_function" test_dict in
  let assertion := dict_get_or_None "assertion" test_dict in
  let expected_return := dict_get_or_None "expected-return" test_dict in
  fst (is_valid_test is_SaltException salt_function self test_dict w)
  = Ret true <->
  (py_truthy m_and_f = true /\
   (exists module function,
      py_split_dot m_and_f = Ret [module; function] /\
      is_valid_module self module = Ret true /\
      fst (is_valid_function is_SaltException salt_function
             module function w) = Ret true) /\
   py_truthy assertion = true /\
   py_in assertion (VList (assertions_list self)) = Ret true /\
   py_truthy expected_return = true).
Proof using is_SaltException salt_function.
  clear py_eval dunder_opts.
  intros m_and_f assertion expected_return.
  unfold is_valid_test, bind, lift, ret.
  fold m_and_f assertion expected_return.
  destruct (py_truthy m_and_f) eqn:Hm.
  2:{ destruct (py_truthy assertion);
        [destruct (py_in assertion _) as [[|]|]|];
        destruct (py_truthy expected_return); simpl;
        split; try discriminate; intros [H _]; discriminate H. }
  destruct (py_split_dot m_and_f) as [parts|e] eqn:Hs.
  2:{ simpl. split; [discriminate|].
      intros (_ & (mo & fu & H & _) & _). discriminate H. }
  destruct (unpack2 parts) as [[module function]|e] eqn:Hu.
  2:{ simpl. split; [discriminate|].
      intros (_ & (mo & fu & H & _) & _). inversion H; subst.
      discriminate Hu. }
  apply unpack2_Ret in Hu. subst parts.
  destruct (is_valid_module self module) as [okm|e] eqn:Hvm.
  2:{ simpl. split; [discriminate|].
      intros (_ & (mo & fu & H & H' & _) & _). inversion H; subst.
      congruence. }
  destruct (is_valid_function is_SaltException salt_function
              module function w) as [[okf|e] w'] eqn:Hvf.
  2:{ simpl. split; [discriminate|].
      intros (_ & (mo & fu & H & _ & H') & _). inversion H; subst.
      rewrite Hvf in H'. discriminate H'. }
  assert (Hex : forall P : Prop,
            (okm = true /\ okf = true /\ P) <->
            (true = true /\
             (exists mo fu,
                Ret [module; function] = Ret [mo; fu] /\
                is_valid_module self mo = Ret true /\
                fst (is_valid_function is_SaltException salt_function
                       mo fu w) = Ret true) /\ P)).
  { intros P. split.
    - intros (-> & -> & HP). split; [reflexivity|]. split; [|exact HP].
      exists module, function. rewrite Hvm, Hvf. auto.
    - intros (_ & (mo & fu & H & H1 & H2) & HP). inversion H; subst.
      rewrite Hvm in H1. rewrite Hvf in H2. simpl in H2.
      repeat split; congruence. }
  rewrite <- Hex. clear Hex.
  destruct (py_truthy assertion);
    [destruct (py_in assertion _) as [[|]|]|];
    destruct (py_truthy expected_return);
    destruct okm, okf; simpl;
    split; try discriminate; try tauto;
    intros (? & ? & ? & ? & ?); discriminate.
Qed.

Lemma SaltCheck_init_assertions o w0 self w1 :
  SaltCheck_init is_SaltException salt_function dunder_opts o w0
  = (Ret self, w1) ->
  assertions_list self =
  map VStr ["assertEqual"; "assertNotEqual"; "assertTrue"; "assertFalse";
            "assertIn"; "assertGreater"; "assertGreaterEqual";
            "assertLess"; "assertLessEqual"].
Proof.
  unfold SaltCheck_init, bind, ret.
  destruct (populate_salt_modules_list _ _ w0) as [[mods|e] w']; intros H;
    inversion H; reflexivity.
Qed.

(** A recognized assertion is a name of the list, hence not empty. *)
Lemma recognized_is_truthy o w0 self w1 (a : value) :
  SaltCheck_init is_SaltException salt_function dunder_opts o w0
  = (Ret self, w1) ->
  py_in a (VList (assertions_list self)) = Ret true ->
  py_truthy a = true.
Proof.
  intros Hinit. rewrite (SaltCheck_init_assertions _ _ _ _ Hinit).
  destruct a as [| | | s | | |]; try (simpl; discriminate).
  destruct s; [simpl; discriminate | reflexivity].
Qed.

Lemma truthy_not_None (v : value) : py_truthy v = true -> v <> VNone.
Proof. intros H ->. discriminate H. Qed.

Lemma split_dot_two (s a b : string) :
  split_dot s = [a; b] -> py_truthy (VStr s) = true.
Proof. destruct s; [discriminate | reflexivity]. Qed.

(** C3, as the code has it. For a [SaltCheck] object built by the
    constructor, and a declaration whose expected-return is absent, null
    or a true value, the six-point score reaches its threshold if and
    only if every validation condition holds: the target operation is
    present and splits into a registered namespace and a registered
    operation, the assertion is present and recognized, and the
    expected-return is present.  A declaration whose assertion is not
    recognized never passes, whatever its other fields. *)
Theorem scoring_is_strict_conjunction o w0 self w1 test_dict w :
  SaltCheck_init is_SaltException salt_function dunder_opts o w0
  = (Ret self, w1) ->
  (dict_get_or_None "expected-return" test_dict = VNone \/
   py_truthy (dict_get_or_None "expected-return" test_dict) = true) ->
  (fst (is_valid_test is_SaltException salt_function self test_dict w)
   = Ret true <->
   declared_valid is_SaltException salt_function self test_dict w) /\
  (py_in (dict_get_or_None "assertion" test_dict)
     (VList (assertions_list self)) <> Ret true ->
   fst (is_valid_test is_SaltException salt_function self test_dict w)
   <> Ret true).
Proof.
  intros Hinit Hexp. split.
  - rewrite is_valid_test_passes. unfold declared_valid. split.
    + intros (Hm & (mo & fu & Hs & Hvm & Hvf) & Ha & Hrec & He).
      destruct (dict_get_or_None "module_and_function" test_dict)
        as [| | | s | | |]; try discriminate Hs.
      inversion Hs as [Hs']. exists s, mo, fu.
      rewrite is_valid_function_unfold in Hvf.
      destruct (call_salt_command _ _ _ _ _ w) as [[fs|e] w'] eqn:Hc;
        [|discriminate Hvf].
      repeat split; auto using truthy_not_None.
      * now apply is_valid_module_true.
      * exists fs, w'. auto.
    + intros (s & mo & fu & Hs & Hsp & Hvm & (fs & w' & Hc & Hf) & Ha
              & Hrec & He).
      rewrite Hs. repeat split.
      * eapply split_dot_two; eauto.
      * exists mo, fu. simpl. rewrite Hsp.
        repeat split; [now apply is_valid_module_true|].
        rewrite is_valid_function_unfold, Hc. exact Hf.
      * eapply recognized_is_truthy; eauto.
      * exact Hrec.
      * destruct Hexp; [contradiction | assumption].
  - intros Hrec Hpass. apply is_valid_test_passes in Hpass.
    apply Hrec. tauto.
Qed.

(** An invalid declaration is reported and nothing more is done. *)
Lemma run_test_invalid self test_dict w w' :
  is_valid_test is_SaltException salt_function self test_dict w
  = (Ret false, w') ->
  run_test py_eval is_SaltException salt_function self test_dict w
  = (Ret (VStr "False: Invalid test"), w').
Proof.
  intros H. unfold run_test, bind. rewrite H. reflexivity.
Qed.

Lemma run_test_validation_raises self test_dict w w' e :
  is_valid_test is_SaltException salt_function self test_dict w
  = (Raise e, w') ->
  run_test py_eval is_SaltException salt_function self test_dict w
  = (Raise e, w').
Proof.
  intros H. unfold run_test, bind. rewrite H. reflexivity.
Qed.

(** The only call validation makes to the minion is the registry query
    [sys.list_functions]. *)
Lemma is_valid_function_calls module function w r w' :
  is_valid_function is_SaltException salt_function module function w
  = (r, w') ->
  calls w' =
  (calls w ++ [mkCall (VStr "sys.list_functions") [VStr module] []])%list.
Proof.
  rewrite is_valid_function_unfold.
  unfold call_salt_command, try_except, salt_lc_function, bind, lift, ret.
  simpl.
  destruct (salt_function (calls w) _) as [v|e]; simpl.
  - intros H; inversion H; reflexivity.
  - destruct (is_SaltException (exc_class e) || is_Exception (exc_class e));
      intros H; inversion H; reflexivity.
Qed.

Lemma is_valid_test_calls self test_dict w r w' :
  is_valid_test is_SaltException salt_function self test_dict w
  = (r, w') ->
  calls w' = calls w \/
  exists module,
    calls w' =
    (calls w ++ [mkCall (VStr "sys.list_functions") [VStr module] []])%list.
Proof.
  unfold is_valid_test, bind, lift, ret.
  destruct (py_truthy (dict_get_or_None "module_and_function" test_dict)).
  2:{ destruct (py_truthy (dict_get_or_None "assertion" test_dict));
        [destruct (py_in _ _)|]; intros H; inversion H; auto. }
  destruct (py_split_dot _) as [parts|e];
    [|intros H; inversion H; auto].
  destruct (unpack2 parts) as [[module function]|e];
    [|intros H; inversion H; auto].
  destruct (is_valid_module self module) as [okm|e];
    [|intros H; inversion H; auto].
  destruct (is_valid_function _ _ module function w) as [[okf|e] w1] eqn:Hf;
    apply is_valid_function_calls in Hf.
  2:{ intros H; inversion H; subst. right. eauto. }
  destruct (py_truthy (dict_get_or_None "assertion" test_dict));
    [destruct (py_in _ _)|]; intros H; inversion H; subst; right; eauto.
Qed.

(** A valid declaration is dispatched, its expected value coerced, and
    the evaluator of its assertion kind applied, for each of the ten
    kinds that [run_test] knows. *)
Lemma run_test_dispatch self test_dict w w1 m_and_f kind expected ev :
  is_valid_test is_SaltException salt_function self test_dict w
  = (Ret true, w1) ->
  dict_get (VStr "module_and_function") test_dict = Some m_and_f ->
  dict_get (VStr "assertion") test_dict = Some (VStr kind) ->
  dict_get (VStr "expected-return") test_dict = Some expected ->
  evaluator_of py_eval kind = Some ev ->
  run_test py_eval is_SaltException salt_function self test_dict w =
  match call_salt_command is_SaltException salt_function m_and_f
          (dict_get_or_None "args" test_dict)
          (dict_get_or_None "kwargs" test_dict) w1 with
  | (Ret actual, w2) =>
      match cast_expected_to_returned_type expected actual w2 with
      | (Ret expected', w3) => (ev expected' actual, w3)
      | (Raise e, w3) => (Raise e, w3)
      end
  | (Raise e, w2) => (Raise e, w2)
  end.
Proof.
  intros Hv Hm Ha He Hev.
  unfold run_test, bind, lift, dict_getitem. rewrite Hv, Hm, Ha, He.
  destruct (call_salt_command _ _ m_and_f _ _ w1) as [[actual|e] w2];
    [|reflexivity].
  destruct (cast_expected_to_returned_type expected actual w2)
    as [[expected'|e] w3]; [|reflexivity].
  unfold evaluator_of in Hev.
  repeat match type of Hev with
         | (if String.eqb kind ?name then _ else _) = _ =>
             destruct (String.eqb_spec kind name) as [->|_];
             [inversion Hev; reflexivity|]
         end.
  discriminate Hev.
Qed.

(** A target operation that is a string without exactly one dot always
    makes validation raise. *)
Lemma malformed_target_always_raises self test_dict w s :
  dict_get_or_None "module_and_function" test_dict = VStr s ->
  s <> EmptyString ->
  List.length (split_dot s) <> 2%nat ->
  is_valid_test is_SaltException salt_function self test_dict w
  = (Raise ValueError, w).
Proof.
  intros Hm Hs Hlen. unfold is_valid_test, bind, lift. rewrite Hm.
  destruct s as [|c s]; [contradiction|]. cbn [py_truthy].
  change (py_split_dot (VStr (String c s))) with (Ret (split_dot (String c s))).
  destruct (split_dot (String c s)) as [|a [|b [|x r]]]; try reflexivity.
  now contradiction Hlen.
Qed.

(** An expected-return that is present but not a true value never
    passes. *)
Lemma falsy_expected_return_never_valid self test_dict w :
  py_truthy (dict_get_or_None "expected-return" test_dict) = false ->
  fst (is_valid_test is_SaltException salt_function self test_dict w)
  <> Ret true.
Proof.
  intros He Hpass. apply is_valid_test_passes in Hpass.
  destruct Hpass as (_ & _ & _ & _ & Ht). congruence.
Qed.

(** C6. For every declaration that fails validation, [run_test] returns
    the failure result tagged as an invalid test, and leaves the world as
    validation left it: the only call made to the minion, if any, is the
    registry query [sys.list_functions] of validation; the target
    operation is not dispatched. *)
Theorem invalid_is_reported_not_executed self test_dict w w' :
  is_valid_test is_SaltException salt_function self test_dict w
  = (Ret false, w') ->
  run_test py_eval is_SaltException salt_function self test_dict w
  = (Ret (VStr "False: Invalid test"), w') /\
  (calls w' = calls w \/
   exists module,
     calls w' =
     (calls w ++ [mkCall (VStr "sys.list_functions") [VStr module] []])%list).
Proof.
  intros H. split.
  - now apply run_test_invalid.
  - eapply is_valid_test_calls; eauto.
Qed.

End Validation.

(* ------------------------------------------------------------------ *)
(** ** Validation on the sample minion *)
(* ------------------------------------------------------------------ *)

Lemma test_scheck_built :
  SaltCheck_init no_SaltException test_minion [] None world0
  = (Ret test_scheck,
     mkWorld [mkCall (VStr "sys.list_modules") [] []] 0).
Proof. reflexivity. Qed.

Lemma scoring_is_strict_conjunction_witness :
  let test_dict :=
    declaration (VStr "test.echo") (VList [VStr "This works!"])
      (VStr "assertEqual") (VStr "This works!") in
  (fst (is_valid_test no_SaltException test_minion test_scheck test_dict
          world0) = Ret true <->
   declared_valid no_SaltException test_minion test_scheck test_dict world0)
  /\
  (py_in (dict_get_or_None "assertion" test_dict)
     (VList (assertions_list test_scheck)) <> Ret true ->
   fst (is_valid_test no_SaltException test_minion test_scheck test_dict
          world0) <> Ret true).
Proof.
  intros test_dict.
  apply (scoring_is_strict_conjunction no_SaltException test_minion []
           None world0 test_scheck
           (mkWorld [mkCall (VStr "sys.list_modules") [] []] 0)
           test_dict world0).
  - reflexivity.
  - right. reflexivity.
Defined.

(** C3, as stated, fails: with expected-return [False] every condition
    the specification lists holds (the field is present), and validation
    still rejects the declaration. *)
Lemma present_but_false_expected_return :
  let test_dict :=
    declaration (VStr "test.ping") VNone (VStr "assertFalse")
      (VBool false) in
  declared_valid no_SaltException test_minion test_scheck test_dict world0 /\
  fst (is_valid_test no_SaltException test_minion test_scheck test_dict
         world0) = Ret false /\
  ~ (fst (is_valid_test no_SaltException test_minion test_scheck test_dict
            world0) = Ret true <->
     declared_valid no_SaltException test_minion test_scheck test_dict
       world0).
Proof.
  intros test_dict.
  assert (Hd : declared_valid no_SaltException test_minion test_scheck
                 test_dict world0).
  { exists "test.ping", "test", "ping".
    repeat split; try reflexivity; try discriminate.
    eexists _, _. split; reflexivity. }
  repeat split; [exact Hd|].
  intros [_ H]. specialize (H Hd). discriminate H.
Qed.

Lemma invalid_is_reported_not_executed_witness :
  let test_dict :=
    [(VStr "module_and_function", VStr "test.echo");
     (VStr "args", VList [VStr "This works!"]);
     (VStr "expected-return", VStr "This works!")] in
  let w' := mkWorld [mkCall (VStr "sys.list_functions") [VStr "test"] []] 0 in
  run_test eval_names no_SaltException test_minion test_scheck test_dict
    world0
  = (Ret (VStr "False: Invalid test"), w') /\
  (calls w' = calls world0 \/
   exists module,
     calls w' =
     (calls world0 ++
      [mkCall (VStr "sys.list_functions") [VStr module] []])%list).
Proof.
  intros test_dict w'.
  apply (invalid_is_reported_not_executed eval_names no_SaltException
           test_minion test_scheck test_dict world0 w').
  reflexivity.
Defined.

(** C2 at its failing input: [assertNotIn] is missing from
    [assertions_list], so a declaration that is valid in every other
    respect scores five points and is reported as invalid; the branch of
    [run_test] that calls [assert_not_in] is never reached. *)
Theorem assertNotIn_is_rejected :
  let test_dict :=
    declaration (VStr "test.echo") (VList [VStr "abc"])
      (VStr "assertNotIn") (VStr "z") in
  let w' := mkWorld [mkCall (VStr "sys.list_functions") [VStr "test"] []] 0 in
  is_valid_test no_SaltException test_minion test_scheck test_dict world0
  = (Ret false, w') /\
  run_test eval_names no_SaltException test_minion test_scheck test_dict
    world0
  = (Ret (VStr "False: Invalid test"), w') /\
  py_in (VStr "assertNotIn") (VList (assertions_list test_scheck))
  = Ret false.
Proof. repeat split. Qed.

(** With [assertNotIn] in the list, the same declaration reaches
    [assert_not_in]. *)
Example assertNotIn_branch_of_run_test :
  let self := mkSaltCheck []
                (assertions_list test_scheck ++ [VStr "assertNotIn"])%list
                (modules test_scheck) in
  fst (run_test eval_names no_SaltException test_minion self
         (declaration (VStr "test.echo") (VList [VStr "abc"])
            (VStr "assertNotIn") (VStr "z")) world0)
  = assert_not_in (VStr "z") (VStr "abc") /\
  assert_not_in (VStr "z") (VStr "abc") = Ret (VBool true).
Proof. split; reflexivity. Qed.

(** No object the constructor builds recognizes [assertNotIn]. *)
Lemma assertNotIn_never_valid is_SaltException salt_function dunder_opts
  o w0 self w1 test_dict w :
  SaltCheck_init is_SaltException salt_function dunder_opts o w0
  = (Ret self, w1) ->
  dict_get_or_None "assertion" test_dict = VStr "assertNotIn" ->
  fst (is_valid_test is_SaltException salt_function self test_dict w)
  <> Ret true.
Proof.
  intros Hinit Ha Hpass. apply is_valid_test_passes in Hpass.
  destruct Hpass as (_ & _ & _ & Hrec & _).
  rewrite Ha, (SaltCheck_init_assertions _ _ _ _ _ _ _ Hinit) in Hrec.
  discriminate Hrec.
Qed.

(** C4 at its failing inputs: a target operation without a dot, or with
    two dots, makes the unpacking of [split('.')] raise [ValueError] out
    of [is_valid_test], and [run_test] lets it through. *)
Theorem malformed_target_raises :
  let no_dot :=
    declaration (VStr "nodot") VNone (VStr "assertEqual") (VStr "x") in
  let two_dots :=
    declaration (VStr "a.b.c") VNone (VStr "assertEqual") (VStr "x") in
  is_valid_test no_SaltException test_minion test_scheck no_dot world0
  = (Raise ValueError, world0) /\
  run_test eval_names no_SaltException test_minion test_scheck no_dot world0
  = (Raise ValueError, world0) /\
  is_valid_test no_SaltException test_minion test_scheck two_dots world0
  = (Raise ValueError, world0) /\
  run_test eval_names no_SaltException test_minion test_scheck two_dots
    world0
  = (Raise ValueError, world0).
Proof. repeat split. Qed.

(** A target operation that is not a string has no [split]. *)
Example target_not_a_string :
  is_valid_test no_SaltException test_minion test_scheck
    (declaration (VInt 5) VNone (VStr "assertEqual") (VStr "x")) world0
  = (Raise AttributeError, world0).
Proof. reflexivity. Qed.

(** C5 at its failing inputs: an expected-return that is present but
    false, zero or empty earns no point, and the declaration is reported
    as invalid although every other condition holds. *)
Theorem falsy_expected_return_is_rejected :
  let decl expected :=
    declaration (VStr "test.echo") (VList [expected]) (VStr "assertEqual")
      expected in
  let w' := mkWorld [mkCall (VStr "sys.list_functions") [VStr "test"] []] 0 in
  let rejected expected :=
    is_valid_test no_SaltException test_minion test_scheck (decl expected)
      world0 = (Ret false, w') /\
    run_test eval_names no_SaltException test_minion test_scheck
      (decl expected) world0 = (Ret (VStr "False: Invalid test"), w') in
  rejected (VBool false) /\
  rejected (VInt 0) /\
  rejected (VStr EmptyString) /\
  run_test eval_names no_SaltException test_minion test_scheck
    (decl (VInt 1)) world0
  = (Ret (VBool true),
     mkWorld [mkCall (VStr "sys.list_functions") [VStr "test"] [];
              mkCall (VStr "test.echo") [VInt 1] []] 0).
Proof. repeat split. Qed.

(* ================================================================== *)
(** * Merging the test files of a state *)
(* ================================================================== *)

(** Keys that are equal to one another are equal to the same keys. *)
Lemma scalar_eq_trans_l (a b c : value) :
  scalar_eq a b = true -> scalar_eq a c = scalar_eq b c.
Proof.
  destruct a as [| x | x | x | | | x ? ?], b as [| y | y | y | | | y ? ?];
    simpl; try discriminate; intros H;
    try apply Bool.eqb_prop in H; try apply Z.eqb_eq in H;
    try apply String.eqb_eq in H; try apply Nat.eqb_eq in H;
    subst; try reflexivity;
    destruct c as [| z | z | z | | | z ? ?]; simpl; try reflexivity;
    repeat match goal with v : bool |- _ => destruct v end; reflexivity.
Qed.

Lemma scalar_eq_sym (a b : value) : scalar_eq a b = scalar_eq b a.
Proof.
  destruct a, b; simpl; try reflexivity.
  - destruct b, b0; reflexivity.
  - apply Z.eqb_sym.
  - apply Z.eqb_sym.
  - apply Z.eqb_sym.
  - apply String.eqb_sym.
  - apply Nat.eqb_sym.
Qed.

Lemma dict_get_app (name : value) (d e : pydict) :
  dict_get name (d ++ e)%list =
  match dict_get name d with
  | Some body => Some body
  | None => dict_get name e
  end.
Proof.
  induction d as [|[k v] d IH]; simpl; [reflexivity|].
  destruct (scalar_eq k name); auto.
Qed.

(** Reading after [d[k] = v]. *)
Lemma dict_get_set (name k v : value) (d : pydict) :
  dict_get name (dict_set k v d) =
  if scalar_eq k name then Some v else dict_get name d.
Proof.
  induction d as [|[k' v'] d IH]; simpl; [reflexivity|].
  destruct (scalar_eq k' k) eqn:E; simpl.
  - rewrite (scalar_eq_trans_l _ _ name E).
    destruct (scalar_eq k name); reflexivity.
  - rewrite IH. destruct (scalar_eq k' name) eqn:E'; [|reflexivity].
    destruct (scalar_eq k name) eqn:E''; [|reflexivity].
    rewrite (scalar_eq_trans_l _ _ k E'), scalar_eq_sym in E.
    congruence.
Qed.

(** Copying the items of one file into the collection. *)
Lemma dict_get_update (name : value) (items d : pydict) :
  dict_get name
    (fold_left (fun d kv => dict_set (fst kv) (snd kv) d) items d) =
  match dict_get name (rev items) with
  | Some body => Some body
  | None => dict_get name d
  end.
Proof.
  revert d. induction items as [|[k v] items IH]; intros d; simpl;
    [reflexivity|].
  rewrite IH, dict_get_app, dict_get_set. simpl.
  destruct (dict_get name (rev items)); [reflexivity|].
  destruct (scalar_eq k name); reflexivity.
Qed.

Lemma dict_get_absent (name : value) (d : pydict) :
  (forall k, In k (map fst d) -> scalar_eq k name = false) ->
  dict_get name d = None.
Proof.
  induction d as [|[k v] d IH]; simpl; intros H; [reflexivity|].
  rewrite (H k (or_introl eq_refl)). apply IH. intros; apply H; auto.
Qed.

(** In a dict with distinct keys the first entry for a name is also the
    last one. *)
Lemma dict_get_rev (name : value) (d : pydict) :
  distinct_keys (map fst d) = true ->
  dict_get name (rev d) = dict_get name d.
Proof.
  induction d as [|[k v] d IH]; simpl; intros Hd; [reflexivity|].
  apply andb_true_iff in Hd as [Hk Hd].
  rewrite dict_get_app, (IH Hd). simpl.
  destruct (scalar_eq k name) eqn:E; [|now destruct (dict_get name d)].
  rewrite dict_get_absent; [reflexivity|].
  intros k' Hin. apply negb_true_iff in Hk.
  destruct (scalar_eq k' name) eqn:E'; [|reflexivity].
  rewrite <- Hk. symmetry. apply existsb_exists. exists k'. split; [easy|].
  rewrite (scalar_eq_trans_l _ _ k' E).
  rewrite scalar_eq_sym. exact E'.
Qed.

Section Merge.

Variable load_yaml : string -> outcome value.

(** What [load_test_suite] computes when every file parses to a dict. *)
Lemma load_test_suite_merges (files : list string)
  (contents : list pydict) (paths all_files : list string) (d : pydict)
  : Forall2 (fun f c => load_yaml f = Ret (VDict c)) files contents ->
    fold_left (fun acc myfile =>
                 obind acc (fun stl => load_file load_yaml stl myfile))
      files (Ret (mkLoader paths all_files d))
    = Ret (mkLoader paths all_files
             (fold_left
                (fun d c =>
                   fold_left (fun d kv => dict_set (fst kv) (snd kv) d) c d)
                contents d)).
Proof.
  intros H. revert d.
  induction H as [|f c files contents Hf _ IH]; intros d; simpl;
    [reflexivity|].
  unfold load_file at 2. rewrite Hf. simpl. apply IH.
Qed.

Lemma merged_lookup (name : value) (contents : list pydict) (d : pydict) :
  Forall (fun c => distinct_keys (map fst c) = true) contents ->
  dict_get name
    (fold_left
       (fun d c => fold_left (fun d kv => dict_set (fst kv) (snd kv) d) c d)
       contents d) =
  match last_definition name contents with
  | Some body => Some body
  | None => dict_get name d
  end.
Proof.
  intros H. revert d.
  induction H as [|c contents Hc _ IH]; intros d; simpl; [reflexivity|].
  rewrite IH, dict_get_update, (dict_get_rev _ _ Hc).
  destruct (last_definition name contents); reflexivity.
Qed.

(** C9. Merging is last-write-wins. When every discovered file parses to
    a mapping of test names to bodies, [load_test_suite] returns (it
    raises no duplicate-name error), and in the merged collection every
    name has the body given by the last file, in discovery order, that
    defines it; a name that no file defines keeps what the loader held
    for it, which is nothing for a new loader. *)
Theorem merge_is_last_write_wins (stl : StateTestLoader)
  (contents : list pydict) :
  Forall2 (fun f c => load_yaml f = Ret (VDict c) /\
                      distinct_keys (map fst c) = true)
    (test_files stl) contents ->
  exists merged,
    load_test_suite load_yaml stl
    = Ret (mkLoader (search_paths stl) (test_files stl) merged) /\
    forall name,
      dict_get name merged =
      match last_definition name contents with
      | Some body => Some body
      | None => dict_get name (test_dict stl)
      end.
Proof.
  intros H.
  exists (fold_left
            (fun d c =>
               fold_left (fun d kv => dict_set (fst kv) (snd kv) d) c d)
            contents (test_dict stl)).
  split.
  - unfold load_test_suite. destruct stl as [paths files d]. simpl in *.
    apply load_test_suite_merges.
    eapply Forall2_impl; [|exact H]. simpl. tauto.
  - intros name. apply merged_lookup.
    clear - H. induction H as [|f c fs cs [_ Hc] _ IH]; constructor; auto.
Qed.

End Merge.

Lemma merge_is_last_write_wins_witness :
  let stl :=
    mkLoader [base_dir]
      [base_dir ++ "/apache/salt-check-tests/1.tst";
       base_dir ++ "/apache/salt-check-tests/2.tst"] [] in
  exists merged,
    load_test_suite sample_load stl
    = Ret (mkLoader (search_paths stl) (test_files stl) merged) /\
    forall name,
      dict_get name merged =
      match last_definition name [file_1; file_2] with
      | Some body => Some body
      | None => dict_get name (test_dict stl)
      end.
Proof.
  intros stl.
  apply (merge_is_last_write_wins sample_load stl [file_1; file_2]).
  repeat constructor.
Defined.

(** Both files define [dup]: the body of the later file is the one in
    the merged collection. *)
Example merge_of_dup :
  let stl :=
    mkLoader [base_dir]
      [base_dir ++ "/apache/salt-check-tests/1.tst";
       base_dir ++ "/apache/salt-check-tests/2.tst"] [] in
  last_definition (VStr "dup") [file_1; file_2]
  = dict_get (VStr "dup") file_2 /\
  obind (load_test_suite sample_load stl)
    (fun stl' => Ret (dict_get (VStr "dup") (test_dict stl')))
  = Ret (dict_get (VStr "dup") file_2).
Proof. split; reflexivity. Qed.

(* ================================================================== *)
(** * The per-state entry point *)
(* ================================================================== *)


Section StateTests.

Variable os_walk : string -> list (string * list string * list string).
Variable load_yaml : string -> outcome value.
Variable os_path_abspath : string -> string.
Variable py_eval : string -> outcome value.
Variable is_SaltException : string -> bool.
Variable salt_function : list call -> call -> outcome value.
Variable dunder_opts : pydict.



End StateTests.



(* ================================================================== *)
(** * The specification's sample evaluations *)
(* ================================================================== *)

Example ordering_predicates :
  assert_greater (VInt 100) (VInt 1) = Ret (VBool true) /\
  assert_greater (VInt 100) (VInt (-1)) = Ret (VBool true) /\
  assert_greater (VInt (-1)) (VInt 0) = Ret (VStr "False: 0 not False") /\
  assert_greater (VInt 0) (VInt 0) = Ret (VStr "False: 0 not False") /\
  assert_greater_equal (VInt 0) (VInt 0) = Ret (VBool true) /\
  assert_greater_equal (VInt (-1)) (VInt 0)
  = Ret (VStr "False: 0 not False") /\
  assert_less (VInt (-1)) (VInt 0) = Ret (VBool true) /\
  assert_less (VInt 0) (VInt 0) = Ret (VStr "False: 0 not False") /\
  assert_less (VInt 100) (VInt 0) = Ret (VStr "False: 0 not False") /\
  assert_less_equal (VInt 0) (VInt 0) = Ret (VBool true).
Proof. repeat split. Qed.

Example strict_truth_predicates :
  assert_true (VBool true) = Ret (VBool true) /\
  assert_true (VBool false) = Ret (VStr "False: False not True") /\
  assert_true VNone = Ret (VStr "False: None not True") /\
  assert_true (VInt 1) = Ret (VStr "False: 1 not True") /\
  assert_false eval_names (VBool false) = Ret (VBool true) /\
  assert_false eval_names (VBool true)
  = Ret (VStr "False: True not False") /\
  assert_false eval_names VNone = Ret (VStr "False: None not False").
Proof. repeat split. Qed.

Example membership_predicates :
  assert_in (VInt 1) (VList [VInt 1; VInt 2; VInt 3]) = Ret (VBool true) /\
  assert_in (VStr "a") (VStr "abcde") = Ret (VBool true) /\
  assert_in (VStr "f") (VStr "abcde")
  = Ret (VStr "False: abcde not False") /\
  assert_not_in (VInt 0) (VList [VInt 1; VInt 2; VInt 3; VInt 4])
  = Ret (VBool true) /\
  assert_not_in (VStr "a") (VStr "abcde")
  = Ret (VStr "False: abcde not False").
Proof. repeat split. Qed.

(** The two end-to-end scenarios on [test.echo]. *)
Example end_to_end_pass :
  fst (run_test eval_names no_SaltException test_minion test_scheck
         (declaration (VStr "test.echo") (VList [VStr "This works!"])
            (VStr "assertEqual") (VStr "This works!")) world0)
  = Ret (VBool true).
Proof. reflexivity. Qed.

Example end_to_end_fail :
  fst (run_test eval_names no_SaltException test_minion test_scheck
         (declaration (VStr "test.echo") (VList [VStr "This works!"])
            (VStr "assertEqual") (VStr "Something else")) world0)
  = Ret (VStr "False: Something else is not equal to This works!").
Proof. reflexivity. Qed.

(** A dispatch error is captured as the actual value and shows up in
    the diagnostic. *)
Example dispatch_error_is_reported :
  let self := mkSaltCheck [] (assertions_list test_scheck)
                (VList [VStr "test"; VStr "pkg"]) in
  let minion history c :=
    match call_fun c with
    | VStr "sys.list_functions" => Ret (VList [VStr "pkg.version"])
    | _ => Raise (mkExc "CommandExecutionError" [VStr "no such package"])
    end in
  fst (run_test eval_names no_SaltException minion self
         (declaration (VStr "pkg.version") (VList [VStr "vim"])
            (VStr "assertEqual") (VStr "8.2")) world0)
  = Ret (VStr "False: 8.2 is not equal to no such package").
Proof. reflexivity. Qed.

(** The whole run on the state [apache] of the sample tree. *)
Example run_state_tests_apache :
  fst (run_state_tests sample_walk sample_load sample_abspath eval_names
         no_SaltException test_minion sample_opts (VStr "apache") world0)
  = Ret (VDict [(VStr "apache",
                 VDict [(VStr "dup", VStr "False: c is not equal to b");
                        (VStr "ping", VBool true)])]).
Proof. reflexivity. Qed.

(* ================================================================== *)
(** * Calls to the minion *)
(* ================================================================== *)

Section MinionCalls.

Variable is_SaltException : string -> bool.
Variable salt_function : list call -> call -> outcome value.

Lemma py_iter_raises (v : value) (e : exc) :
  py_iter v = Raise e -> e = TypeError.
Proof. destruct v; simpl; congruence. Qed.

Lemma keywords_raises (d : pydict) (e : exc) :
  keywords d = Raise e -> e = TypeError.
Proof.
  induction d as [|[k v] d IH]; simpl; [discriminate|].
  destruct k; try congruence.
  destruct (keywords d); simpl; [discriminate|]. intros H.
  apply IH. congruence.
Qed.

Lemma unpack_kwargs_raises (kwargs : value) (e : exc) :
  unpack_kwargs kwargs = Raise e -> e = TypeError.
Proof.
  destruct kwargs; simpl; try congruence. apply keywords_raises.
Qed.

Lemma star_args_raises (args : value) (e : exc) :
  star_args args = Raise e -> e = TypeError.
Proof.
  unfold star_args. destruct (py_truthy args); [|discriminate].
  apply py_iter_raises.
Qed.

Lemma star_kwargs_raises (kwargs : value) (e : exc) :
  star_kwargs kwargs = Raise e -> e = TypeError.
Proof.
  unfold star_kwargs.
  destruct (py_truthy kwargs); [|discriminate].
  apply unpack_kwargs_raises.
Qed.

(** The four branches of [call_salt_command] are one call with the
    arguments that are true values; an argument that does not unpack is
    answered with a [TypeError] object and no call. *)
Lemma call_salt_command_cases (fn args kwargs : value) (w : world) :
  call_salt_command is_SaltException salt_function fn args kwargs w =
  match star_args args, star_kwargs kwargs with
  | Ret pos, Ret kw =>
      let c := mkCall fn pos kw in
      match salt_function (calls w) c with
      | Ret v => (Ret v, called w c)
      | Raise e =>
          if is_SaltException (exc_class e) || is_Exception (exc_class e)
          then (Ret (VExc (next_oid w) (exc_class e) (exc_args e)),
                caught (called w c))
          else (Raise e, called w c)
      end
  | _, _ => (Ret (VExc (next_oid w) "TypeError" []), caught w)
  end.
Proof.
  unfold call_salt_command, try_except, star_args, star_kwargs.
  assert (Hty : is_SaltException (exc_class TypeError)
                || is_Exception (exc_class TypeError) = true)
    by apply orb_true_r.
  destruct (py_truthy args), (py_truthy kwargs); simpl;
    unfold salt_lc_function, bind, lift; simpl.
  - destruct (py_iter args) as [pos|e] eqn:Ha.
    + destruct (unpack_kwargs kwargs) as [kw|e] eqn:Hk.
      * destruct (salt_function (calls w) _) as [v|e]; [reflexivity|].
        simpl. destruct (_ || _); reflexivity.
      * rewrite (unpack_kwargs_raises _ _ Hk), Hty. reflexivity.
    + rewrite (py_iter_raises _ _ Ha), Hty.
      destruct (unpack_kwargs kwargs); reflexivity.
  - destruct (py_iter args) as [pos|e] eqn:Ha.
    + destruct (salt_function (calls w) _) as [v|e]; [reflexivity|].
      simpl. destruct (_ || _); reflexivity.
    + rewrite (py_iter_raises _ _ Ha), Hty. reflexivity.
  - destruct (unpack_kwargs kwargs) as [kw|e] eqn:Hk.
    + destruct (salt_function (calls w) _) as [v|e]; [reflexivity|].
      simpl. destruct (_ || _); reflexivity.
    + rewrite (unpack_kwargs_raises _ _ Hk), Hty. reflexivity.
  - destruct (salt_function (calls w) _) as [v|e]; [reflexivity|].
    simpl. destruct (_ || _); reflexivity.
Qed.

(** X1. [call_salt_command] turns the minion's errors into values: with
    a minion whose errors all derive from [Exception] it always returns,
    and an error that does escape is one the minion itself raised and
    that does not derive from [Exception]. *)
Theorem call_salt_command_captures_errors (fn args kwargs : value)
  (w : world) :
  (raises_only_Exceptions salt_function ->
   exists v w',
     call_salt_command is_SaltException salt_function fn args kwargs w
     = (Ret v, w')) /\
  (forall e w',
     call_salt_command is_SaltException salt_function fn args kwargs w
     = (Raise e, w') ->
     is_Exception (exc_class e) = false /\
     exists pos kw, salt_function (calls w) (mkCall fn pos kw) = Raise e).
Proof.
  rewrite call_salt_command_cases. split.
  - intros Hm.
    destruct (star_args args) as [pos|?]; [|eauto].
    destruct (star_kwargs kwargs) as [kw|?]; [|eauto]. simpl.
    destruct (salt_function (calls w) _) as [v|e] eqn:E; [eauto|].
    rewrite (Hm _ _ _ E), orb_true_r. eauto.
  - intros e w'.
    destruct (star_args args) as [pos|?]; [|discriminate].
    destruct (star_kwargs kwargs) as [kw|?]; [|discriminate]. simpl.
    destruct (salt_function (calls w) _) as [v|e0] eqn:E; [discriminate|].
    destruct (is_SaltException (exc_class e0)); [discriminate|]. simpl.
    destruct (is_Exception (exc_class e0)) eqn:Ex; [discriminate|].
    intros H; inversion H; subst. split; [exact Ex|]. eauto.
Qed.

(** X2. An [args] that cannot be iterated, or a [kwargs] that is not a
    mapping with string keys, is never sent: no call reaches the minion,
    and the [TypeError] object comes back as the result. *)
Theorem arguments_that_do_not_unpack (fn args kwargs : value) (w : world)
  (e : exc) :
  star_args args = Raise e \/ star_kwargs kwargs = Raise e ->
  call_salt_command is_SaltException salt_function fn args kwargs w
  = (Ret (VExc (next_oid w) "TypeError" []), caught w) /\
  calls (caught w) = calls w.
Proof.
  intros H. split; [|reflexivity].
  rewrite call_salt_command_cases. destruct H as [H|H]; rewrite H.
  - reflexivity.
  - destruct (star_args args); reflexivity.
Qed.


End MinionCalls.

Lemma test_minion_raises_only_Exceptions :
  raises_only_Exceptions test_minion.
Proof.
  intros history c e. unfold test_minion.
  destruct (call_fun c) as [| | | f | | |];
    try (intros H; inversion H; reflexivity).
  repeat match goal with
         | |- (if ?b then _ else _) = _ -> _ => destruct b
         | |- match ?x with _ => _ end = _ -> _ => destruct x
         end;
    try discriminate; intros H; inversion H; reflexivity.
Qed.

Lemma call_salt_command_captures_errors_witness :
  (exists v w',
     call_salt_command no_SaltException test_minion (VStr "pkg.install")
       (VList [VStr "vim"]) VNone world0 = (Ret v, w')) /\
  (is_Exception "SystemExit" = false /\
   exists pos kw,
     exiting_minion (calls world0) (mkCall (VStr "test.ping") pos kw)
     = Raise (mkExc "SystemExit" [VInt 1])).
Proof.
  split.
  - apply (proj1 (call_salt_command_captures_errors no_SaltException
                    test_minion (VStr "pkg.install") (VList [VStr "vim"])
                    VNone world0)).
    exact test_minion_raises_only_Exceptions.
  - apply (proj2 (call_salt_command_captures_errors no_SaltException
                    exiting_minion (VStr "test.ping") VNone VNone world0)
             (mkExc "SystemExit" [VInt 1])
             (called world0 (mkCall (VStr "test.ping") [] []))).
    reflexivity.
Defined.

(** The module docstring shows [kwargs] as a YAML list: such a test never
    reaches the minion. *)
Lemma arguments_that_do_not_unpack_witness :
  call_salt_command no_SaltException test_minion (VStr "test.echo")
    (VList [VStr "hello"]) (VList [VStr "A"; VStr "LIST OF"]) world0
  = (Ret (VExc 0 "TypeError" []), caught world0) /\
  calls (caught world0) = calls world0.
Proof.
  apply (arguments_that_do_not_unpack no_SaltException test_minion
           (VStr "test.echo") (VList [VStr "hello"])
           (VList [VStr "A"; VStr "LIST OF"]) world0 TypeError).
  right. reflexivity.
Defined.


(* ================================================================== *)
(** * More on the coercion and the evaluators *)
(* ================================================================== *)

Lemma py_construct_type (fresh : nat) (t : pytype) (x v : value) :
  py_construct fresh t x = Ret v -> type_of v = t.
Proof.
  destruct t; simpl.
  - discriminate.
  - intros H; inversion H; reflexivity.
  - destruct x; try discriminate; try (intros H; inversion H; reflexivity).
    destruct (parse_int s); [|discriminate].
    intros H; inversion H; reflexivity.
  - intros H; inversion H; reflexivity.
  - destruct (py_iter x); simpl; [|discriminate].
    intros H; inversion H; reflexivity.
  - destruct x; try discriminate;
      try (intros H; inversion H; reflexivity);
      simpl; match goal with
             | |- obind (dict_of_items ?i ?a) _ = _ -> _ =>
                 destruct (dict_of_items i a); simpl; [|discriminate];
                 intros H; inversion H; reflexivity
             end.
  - intros H; inversion H; reflexivity.
Qed.

(** X4. The coercion leaves alone an expected value that already has the
    type of the returned one (the type of exception objects apart). *)
Theorem coercion_keeps_a_value_of_the_right_type
  (expected returned : value) (w : world) :
  type_of expected = type_of returned ->
  (forall cls, type_of returned <> TExc cls) ->
  cast_expected_to_returned_type expected returned w = (Ret expected, w).
Proof.
  intros Ht Hex. unfold cast_expected_to_returned_type. rewrite <- Ht.
  destruct expected as [| b | z | s | l | d | oid cls args];
    simpl; rewrite ?andb_false_r; try reflexivity.
  exfalso. apply (Hex cls). now rewrite <- Ht.
Qed.

Lemma coercion_keeps_a_value_of_the_right_type_witness :
  cast_expected_to_returned_type (VList [VInt 1; VStr "a"]) (VList []) world0
  = (Ret (VList [VInt 1; VStr "a"]), world0).
Proof.
  apply (coercion_keeps_a_value_of_the_right_type
           (VList [VInt 1; VStr "a"]) (VList []) world0).
  - reflexivity.
  - intros cls. simpl. discriminate.
Defined.

(** X5. What the coercion returns is the expected value itself or a
    value of the type of the returned one. *)
Theorem coercion_result_type (expected returned v : value) (w w' : world) :
  cast_expected_to_returned_type expected returned w = (Ret v, w') ->
  v = expected \/ type_of v = type_of returned.
Proof.
  unfold cast_expected_to_returned_type.
  destruct (py_construct _ _ _) as [v0|e] eqn:E.
  - intros H; inversion H; subst. right.
    eapply py_construct_type; eauto.
  - intros H; inversion H; subst. now left.
Qed.

Lemma coercion_result_type_witness :
  VInt 12 = VStr " 12 " \/ type_of (VInt 12) = type_of (VInt 0).
Proof.
  apply (coercion_result_type (VStr " 12 ") (VInt 0) (VInt 12)
           world0 world0).
  reflexivity.
Defined.

(** X6. Against a boolean, every text that is not empty and is not
    exactly [False] is coerced to the boolean true, [false], [0] and
    [no] included. *)
Theorem text_against_a_boolean_is_true (s : string) (b : bool) (w : world) :
  s <> EmptyString ->
  s <> "False" ->
  cast_expected_to_returned_type (VStr s) (VBool b) w
  = (Ret (VBool true), w).
Proof.
  intros Hne Hf. unfold cast_expected_to_returned_type. simpl.
  apply String.eqb_neq in Hf. rewrite Hf. simpl.
  apply String.eqb_neq in Hne. rewrite Hne. reflexivity.
Qed.

Lemma text_against_a_boolean_is_true_witness :
  cast_expected_to_returned_type (VStr "false") (VBool false) world0
  = (Ret (VBool true), world0).
Proof.
  apply (text_against_a_boolean_is_true "false" false world0);
    discriminate.
Defined.




(** Two guarded asserts on complementary conditions: one passes exactly
    when the other fails, and they raise together. *)
Lemma complementary_asserts (p q : outcome bool) (msg : string) :
  (forall e, p = Raise e -> e = TypeError) ->
  q = match p with Ret c => Ret (negb c) | Raise e => Raise e end ->
  let pass := Ret (VBool true) in
  let fail := Ret (VStr ("False: " ++ msg)) in
  (except_AssertionError (py_assert p msg) = pass <->
   except_AssertionError (py_assert q msg) = fail) /\
  (except_AssertionError (py_assert q msg) = pass <->
   except_AssertionError (py_assert p msg) = fail) /\
  (forall e,
     except_AssertionError (py_assert p msg) = Raise e <->
     except_AssertionError (py_assert q msg) = Raise e).
Proof.
  intros Hp -> pass fail. subst pass fail.
  destruct p as [[|]|e]; simpl.
  - repeat split; intros; try discriminate; reflexivity.
  - repeat split; intros; try discriminate; reflexivity.
  - rewrite (Hp e eq_refl). simpl. repeat split; intros; try discriminate;
      assumption.
Qed.

(** X7. [assert_not_in] is the exact inverse of [assert_in]: on the same
    operands one passes exactly when the other fails, with the same
    diagnostic, and they raise together. *)
Theorem not_in_is_the_inverse_of_in (a b : value) :
  let fail := Ret (VStr ("False: " ++ py_str b ++ " not False")) in
  (assert_in a b = Ret (VBool true) <-> assert_not_in a b = fail) /\
  (assert_not_in a b = Ret (VBool true) <-> assert_in a b = fail) /\
  (forall e, assert_in a b = Raise e <-> assert_not_in a b = Raise e).
Proof.
  apply (complementary_asserts (py_in a b) (py_not_in a b)).
  - apply py_in_raises.
  - unfold py_not_in. destruct (py_in a b); reflexivity.
Qed.

Lemma not_in_is_the_inverse_of_in_witness :
  assert_in (VStr "b") (VList [VStr "a"; VStr "b"]) = Ret (VBool true) /\
  assert_not_in (VStr "b") (VList [VStr "a"; VStr "b"])
  = Ret (VStr "False: ['a', 'b'] not False").
Proof.
  assert (H : assert_in (VStr "b") (VList [VStr "a"; VStr "b"])
              = Ret (VBool true)) by reflexivity.
  split; [exact H|].
  exact (proj1 (proj1 (not_in_is_the_inverse_of_in (VStr "b")
                         (VList [VStr "a"; VStr "b"]))) H).
Defined.



(** A guarded assert that fails says [False: ] and its message. *)
Lemma guarded_assert_diagnostic (p : outcome bool) (msg d : string) :
  (forall e, p = Raise e -> e = TypeError) ->
  except_AssertionError (py_assert p msg) = Ret (VStr d) ->
  d = "False: " ++ msg.
Proof.
  intros Hp. destruct p as [[|]|e]; simpl.
  - discriminate.
  - intros H; inversion H; reflexivity.
  - rewrite (Hp e eq_refl). discriminate.
Qed.

(** X9. The diagnostic of the membership and ordering evaluators never
    shows the expected value: whenever one of the six fails, its result
    is [False: ], the rendering of the returned value, and [ not
    False]. *)
Theorem diagnostic_shows_only_the_returned_value (a b : value) (d : string) :
  In (Ret (VStr d))
    [assert_in a b; assert_not_in a b; assert_greater a b;
     assert_greater_equal a b; assert_less a b; assert_less_equal a b] ->
  d = "False: " ++ py_str b ++ " not False".
Proof.
  simpl. intros [H|[H|[H|[H|[H|[H|[]]]]]]];
    refine (guarded_assert_diagnostic _ _ _ _ H);
    first [ apply py_in_raises | apply py_not_in_raises
          | apply py_ord_raises ].
Qed.

Lemma diagnostic_shows_only_the_returned_value_witness :
  "False: 7 not False" = "False: " ++ py_str (VInt 7) ++ " not False".
Proof.
  apply (diagnostic_shows_only_the_returned_value (VInt 100) (VInt 7)).
  right. right. right. right. left. reflexivity.
Defined.

(* ================================================================== *)
(** * More on [run_test] *)
(* ================================================================== *)

Lemma guarded_assert_result (p : outcome bool) (msg : string) (v : value) :
  except_AssertionError (py_assert p msg) = Ret v -> is_TestResult v.
Proof.
  destruct p as [[|]|e]; simpl.
  - intros H; inversion H. now left.
  - intros H; inversion H. right. now eexists.
  - destruct (String.eqb (exc_class e) "AssertionError");
      intros H; inversion H. right. now eexists.
Qed.

(** Whatever an evaluator returns is a test result. *)
Lemma evaluator_of_result py_eval kind ev (e a v : value) :
  evaluator_of py_eval kind = Some ev ->
  ev e a = Ret v ->
  is_TestResult v.
Proof.
  unfold evaluator_of.
  repeat match goal with
         | |- (if ?c then _ else _) = _ -> _ =>
             destruct c;
             [intros H; inversion H; subst ev; clear H;
              try apply guarded_assert_result|]
         end; try discriminate.
  unfold assert_false.
  destruct (match e with VStr s => py_eval s | _ => Ret e end) as [x|x];
    [|discriminate].
  intros H. exact (guarded_assert_result _ _ _ H).
Qed.

Lemma truthy_field (key : string) (d : pydict) :
  py_truthy (dict_get_or_None key d) = true ->
  exists v, dict_get (VStr key) d = Some v /\ py_truthy v = true.
Proof.
  unfold dict_get_or_None. destruct (dict_get (VStr key) d) as [v|];
    [eauto | discriminate].
Qed.

Lemma py_in_names (s : string) (names : list string) :
  py_in (VStr s) (VList (map VStr names))
  = Ret (existsb (fun n => String.eqb n s) names).
Proof.
  unfold py_in. f_equal.
  induction names as [|n names IH]; [reflexivity|].
  cbn [map existsb]. now rewrite IH.
Qed.

(** A recognized assertion is the name of an evaluator. *)
Lemma recognized_kind py_eval (a : value) :
  py_in a (VList (map VStr
             ["assertEqual"; "assertNotEqual"; "assertTrue"; "assertFalse";
              "assertIn"; "assertGreater"; "assertGreaterEqual";
              "assertLess"; "assertLessEqual"])) = Ret true ->
  exists kind ev, a = VStr kind /\ evaluator_of py_eval kind = Some ev.
Proof.
  destruct a as [| | | s | | |]; try (simpl; discriminate).
  rewrite py_in_names. intros H.
  assert (H' : existsb (fun n => String.eqb n s)
                 ["assertEqual"; "assertNotEqual"; "assertTrue";
                  "assertFalse"; "assertIn"; "assertGreater";
                  "assertGreaterEqual"; "assertLess"; "assertLessEqual"]
               = true) by congruence.
  clear H. apply existsb_exists in H' as (n & Hin & Heq).
  apply String.eqb_eq in Heq. subst n.
  repeat (destruct Hin as [<-|Hin];
          [eexists _, _; split; reflexivity|]).
  destruct Hin.
Qed.

Section RunTest.

Variable py_eval : string -> outcome value.
Variable is_SaltException : string -> bool.
Variable salt_function : list call -> call -> outcome value.
Variable dunder_opts : pydict.

(** X10. [run_test] returns nothing but test results: for a [SaltCheck]
    object built by the constructor, whatever [run_test] returns is
    [True] or a string that starts with [False: ]; the bare [False] of
    its last branch is never returned. *)
Theorem run_test_returns_test_results o w0 self w1 test_dict w v w' :
  SaltCheck_init is_SaltException salt_function dunder_opts o w0
  = (Ret self, w1) ->
  run_test py_eval is_SaltException salt_function self test_dict w
  = (Ret v, w') ->
  is_TestResult v.
Proof.
  intros Hinit Hrun.
  destruct (is_valid_test is_SaltException salt_function self test_dict w)
    as [[[|]|e] wv] eqn:Hv.
  - pose proof (proj1 (is_valid_test_passes is_SaltException salt_function
                         self test_dict w)) as Hp.
    rewrite Hv in Hp. destruct (Hp eq_refl) as (Hm & _ & Ha & Hrec & He).
    apply truthy_field in Hm as (m & Hm & _).
    apply truthy_field in He as (expected & He & _).
    rewrite (SaltCheck_init_assertions _ _ _ _ _ _ _ Hinit) in Hrec.
    destruct (recognized_kind py_eval _ Hrec) as (kind & ev & Hk & Hev).
    apply truthy_field in Ha as (a & Ha & _).
    unfold dict_get_or_None in Hk. rewrite Ha in Hk. subst a.
    rewrite (run_test_dispatch py_eval is_SaltException salt_function
               self test_dict w wv m kind expected ev Hv Hm Ha He Hev)
      in Hrun.
    destruct (call_salt_command _ _ m _ _ wv) as [[actual|e] w2];
      [|discriminate].
    destruct (cast_expected_to_returned_type expected actual w2)
      as [[expected'|e] w3]; [|discriminate].
    inversion Hrun as [[Hr Hw]].
    eapply evaluator_of_result; eauto.
  - rewrite (run_test_invalid py_eval is_SaltException salt_function
               self test_dict w wv Hv) in Hrun.
    inversion Hrun. right. now eexists.
  - rewrite (run_test_validation_raises py_eval is_SaltException
               salt_function self test_dict w wv e Hv) in Hrun.
    discriminate.
Qed.

(** X11. [assertTrue] and [assertFalse] judge the declared expected
    value, not the returned one, which only supplies the type: when the
    target operation returns a boolean, whichever it is, a valid
    [assertTrue] test passes unless its expected-return equals the text
    [False], and a valid [assertFalse] test whose expected-return is the
    text [False] passes. *)
Theorem truth_assertions_judge_the_expected_value
  self test_dict w w1 w2 m_and_f kind expected (b : bool) :
  is_valid_test is_SaltException salt_function self test_dict w
  = (Ret true, w1) ->
  dict_get (VStr "module_and_function") test_dict = Some m_and_f ->
  dict_get (VStr "assertion") test_dict = Some (VStr kind) ->
  dict_get (VStr "expected-return") test_dict = Some expected ->
  call_salt_command is_SaltException salt_function m_and_f
    (dict_get_or_None "args" test_dict)
    (dict_get_or_None "kwargs" test_dict) w1 = (Ret (VBool b), w2) ->
  (kind = "assertTrue" /\ py_eq expected (VStr "False") = false) \/
  (kind = "assertFalse" /\ expected = VStr "False") ->
  run_test py_eval is_SaltException salt_function self test_dict w
  = (Ret (VBool true), w2).
Proof.
  intros Hv Hm Ha He Hcall Hkind.
  assert (Ht : py_truthy expected = true).
  { pose proof (proj1 (is_valid_test_passes is_SaltException salt_function
                         self test_dict w)) as Hp.
    rewrite Hv in Hp. destruct (Hp eq_refl) as (_ & _ & _ & _ & Ht).
    unfold dict_get_or_None in Ht. now rewrite He in Ht. }
  destruct Hkind as [[-> Hne]|[-> ->]].
  - rewrite (run_test_dispatch py_eval is_SaltException salt_function
               self test_dict w w1 m_and_f "assertTrue" expected
               (fun e _ => assert_true e) Hv Hm Ha He eq_refl).
    rewrite Hcall. unfold cast_expected_to_returned_type.
    rewrite Hne. simpl. rewrite Ht. reflexivity.
  - rewrite (run_test_dispatch py_eval is_SaltException salt_function
               self test_dict w w1 m_and_f "assertFalse" (VStr "False")
               (fun e _ => assert_false py_eval e) Hv Hm Ha He eq_refl).
    rewrite Hcall. reflexivity.
Qed.

(** X12. A dispatch error cannot make an equality test raise: with a
    minion whose errors all derive from [Exception], a declaration that
    validation accepts and whose assertion is [assertEqual],
    [assertNotEqual] or [assertTrue] always gets a test result. *)
Theorem equality_tests_always_return
  self test_dict w w1 kind :
  raises_only_Exceptions salt_function ->
  is_valid_test is_SaltException salt_function self test_dict w
  = (Ret true, w1) ->
  dict_get (VStr "assertion") test_dict = Some (VStr kind) ->
  In kind ["assertEqual"; "assertNotEqual"; "assertTrue"] ->
  exists v w',
    run_test py_eval is_SaltException salt_function self test_dict w
    = (Ret v, w') /\ is_TestResult v.
Proof.
  intros Hmin Hv Ha Hkind.
  pose proof (proj1 (is_valid_test_passes is_SaltException salt_function
                       self test_dict w)) as Hp.
  rewrite Hv in Hp. destruct (Hp eq_refl) as (Hm & _ & _ & _ & He).
  apply truthy_field in Hm as (m & Hm & _).
  apply truthy_field in He as (expected & He & _).
  assert (Hcall : exists actual w2,
            call_salt_command is_SaltException salt_function m
              (dict_get_or_None "args" test_dict)
              (dict_get_or_None "kwargs" test_dict) w1
            = (Ret actual, w2)).
  { rewrite call_salt_command_cases.
    destruct (star_args _) as [pos|?]; [|eauto].
    destruct (star_kwargs _) as [kw|?]; [|eauto]. simpl.
    destruct (salt_function (calls w1) _) as [x|e] eqn:E; [eauto|].
    rewrite (Hmin _ _ _ E), orb_true_r. eauto. }
  destruct Hcall as (actual & w2 & Hcall).
  assert (Hcast : exists expected' w3,
            cast_expected_to_returned_type expected actual w2
            = (Ret expected', w3)).
  { unfold cast_expected_to_returned_type.
    destruct (py_construct _ _ _); eauto. }
  destruct Hcast as (expected' & w3 & Hcast).
  assert (Hev : exists ev,
            evaluator_of py_eval kind = Some ev /\
            exists v, ev expected' actual = Ret v).
  { destruct Hkind as [<-|[<-|[<-|[]]]]; eexists; (split; [reflexivity|]).
    - unfold assert_equal. destruct (py_eq expected' actual); eexists;
        reflexivity.
    - unfold assert_not_equal. destruct (py_ne expected' actual); eexists;
        reflexivity.
    - unfold assert_true. destruct (is_True expected'); eexists;
        reflexivity. }
  destruct Hev as (ev & Hev & v & Hres).
  exists v, w3. split.
  - rewrite (run_test_dispatch py_eval is_SaltException salt_function
               self test_dict w w1 m kind expected ev Hv Hm Ha He Hev).
    rewrite Hcall, Hcast, Hres. reflexivity.
  - eapply evaluator_of_result; eauto.
Qed.

(** X13. When the minion fails while the [SaltCheck] object is built,
    [modules] holds the exception object, and validation then raises
    [TypeError] for every declaration whose target operation has the
    form [module.function]: the registry check [in self.modules] cannot
    search an exception object. *)
Theorem failed_module_listing_breaks_validation (w0 : world) (e : exc) :
  salt_function (calls w0) (mkCall (VStr "sys.list_modules") [] [])
  = Raise e ->
  is_Exception (exc_class e) = true ->
  exists self w1,
    SaltCheck_init is_SaltException salt_function dunder_opts None w0
    = (Ret self, w1) /\
    modules self = VExc (next_oid w0) (exc_class e) (exc_args e) /\
    forall test_dict w s module function,
      dict_get_or_None "module_and_function" test_dict = VStr s ->
      split_dot s = [module; function] ->
      is_valid_test is_SaltException salt_function self test_dict w
      = (Raise TypeError, w).
Proof.
  intros Hfail Hexc.
  unfold SaltCheck_init, populate_salt_modules_list, bind.
  rewrite call_salt_command_cases. simpl. rewrite Hfail, Hexc, orb_true_r.
  eexists _, _. split; [reflexivity|]. split; [reflexivity|].
  intros test_dict w s module function Hm Hs.
  unfold is_valid_test, bind, lift. rewrite Hm.
  rewrite (split_dot_two s module function Hs).
  cbn [py_split_dot]. rewrite Hs. reflexivity.
Qed.

End RunTest.

Lemma run_test_returns_test_results_witness :
  let test_dict :=
    declaration (VStr "test.echo") (VList [VStr "This works!"])
      (VStr "assertEqual") (VStr "Something else") in
  let w1 := mkWorld [mkCall (VStr "sys.list_functions") [VStr "test"] []] 0 in
  SaltCheck_init no_SaltException test_minion [] None world0
  = (Ret test_scheck, mkWorld [mkCall (VStr "sys.list_modules") [] []] 0) /\
  run_test eval_names no_SaltException test_minion test_scheck test_dict
    world0
  = (Ret (VStr "False: Something else is not equal to This works!"),
     called w1 (mkCall (VStr "test.echo") [VStr "This works!"] [])) /\
  is_TestResult (VStr "False: Something else is not equal to This works!").
Proof.
  intros test_dict w1.
  split; [reflexivity|]. split; [reflexivity|].
  apply (run_test_returns_test_results eval_names no_SaltException
           test_minion [] None world0 test_scheck
           (mkWorld [mkCall (VStr "sys.list_modules") [] []] 0)
           test_dict world0
           (VStr "False: Something else is not equal to This works!")
           (called w1 (mkCall (VStr "test.echo") [VStr "This works!"] [])));
    reflexivity.
Defined.

Lemma truth_assertions_judge_the_expected_value_witness :
  let test_dict :=
    declaration (VStr "test.ping") VNone (VStr "assertTrue") (VStr "no") in
  let minion history c :=
    match call_fun c with
    | VStr "test.ping" => Ret (VBool false)
    | _ => test_minion history c
    end in
  let w1 := mkWorld [mkCall (VStr "sys.list_functions") [VStr "test"] []] 0 in
  run_test eval_names no_SaltException minion test_scheck test_dict world0
  = (Ret (VBool true), called w1 (mkCall (VStr "test.ping") [] [])).
Proof.
  intros test_dict minion w1.
  apply (truth_assertions_judge_the_expected_value eval_names
           no_SaltException minion test_scheck test_dict world0 w1
           (called w1 (mkCall (VStr "test.ping") [] []))
           (VStr "test.ping") "assertTrue" (VStr "no") false);
    try reflexivity.
  left. split; reflexivity.
Defined.

Lemma equality_tests_always_return_witness :
  exists v w',
    run_test eval_names no_SaltException test_minion test_scheck
      (declaration (VStr "test.echo") (VInt 7) (VStr "assertEqual")
         (VStr "x")) world0
    = (Ret v, w') /\ is_TestResult v.
Proof.
  apply (equality_tests_always_return eval_names no_SaltException
           test_minion test_scheck
           (declaration (VStr "test.echo") (VInt 7) (VStr "assertEqual")
              (VStr "x"))
           world0
           (mkWorld [mkCall (VStr "sys.list_functions") [VStr "test"] []] 0)
           "assertEqual").
  - exact test_minion_raises_only_Exceptions.
  - reflexivity.
  - reflexivity.
  - left. reflexivity.
Defined.

Lemma failed_module_listing_breaks_validation_witness :
  let minion history c :=
    Raise (mkExc "SaltClientError" [VStr "minion not reachable"])
    : outcome value in
  exists self w1,
    SaltCheck_init no_SaltException minion [] None world0 = (Ret self, w1) /\
    modules self
    = VExc 0 "SaltClientError" [VStr "minion not reachable"] /\
    forall test_dict w s module function,
      dict_get_or_None "module_and_function" test_dict = VStr s ->
      split_dot s = [module; function] ->
      is_valid_test no_SaltException minion self test_dict w
      = (Raise TypeError, w).
Proof.
  intros minion.
  apply (failed_module_listing_breaks_validation no_SaltException minion
           [] world0
           (mkExc "SaltClientError" [VStr "minion not reachable"]));
    reflexivity.
Defined.

(* ================================================================== *)
(** * Search paths and discovery *)
(* ================================================================== *)

Lemma str_app_assoc (a b c : string) : (a ++ b) ++ c = a ++ (b ++ c).
Proof. induction a as [|x a IH]; simpl; [reflexivity | now rewrite IH]. Qed.

(** X14. When [get_state_search_path_list] returns, the cache directory
    is a string, and the list is either the [base] path alone (the
    environment is empty or null) or the path of the named environment
    followed by the [base] path: [base] is always searched, and always
    last. *)
Theorem search_path_list_shape (self : SaltCheck) (paths : list string) :
  get_state_search_path_list self = Ret paths ->
  exists cachedir environment,
    dict_get_or_None "cachedir" (opts self) = VStr cachedir /\
    dict_get (VStr "environment") (opts self) = Some environment /\
    ((py_truthy environment = false /\
      paths = [cachedir ++ "/files/base"]) \/
     (exists env,
        environment = VStr env /\ env <> EmptyString /\
        paths = [cachedir ++ "/files/" ++ env;
                 cachedir ++ "/files/base"])).
Proof.
  unfold get_state_search_path_list, dict_getitem.
  destruct (dict_get (VStr "environment") (opts self)) as [environment|];
    [|discriminate]. simpl.
  destruct (dict_get_or_None "cachedir" (opts self))
    as [| | | cachedir | | |];
    try (destruct (py_truthy environment); discriminate).
  destruct (py_truthy environment) eqn:Ht; simpl.
  - destruct environment as [| | | env | | |]; try discriminate. simpl.
    intros H; inversion H; subst. exists cachedir, (VStr env).
    split; [reflexivity|]. split; [reflexivity|].
    right. exists env. split; [reflexivity|]. split.
    + intros ->. discriminate Ht.
    + now rewrite !str_app_assoc.
  - intros H; inversion H; subst. exists cachedir, environment.
    split; [reflexivity|]. split; [reflexivity|].
    left. split; [exact Ht|].
    now rewrite !str_app_assoc.
Qed.

Lemma search_path_list_shape_witness :
  exists cachedir environment,
    dict_get_or_None "cachedir"
      [(VStr "cachedir", VStr "/srv/cache"); (VStr "environment", VStr "dev")]
    = VStr cachedir /\
    dict_get (VStr "environment")
      [(VStr "cachedir", VStr "/srv/cache"); (VStr "environment", VStr "dev")]
    = Some environment /\
    ((py_truthy environment = false /\
      ["/srv/cache/files/dev"; "/srv/cache/files/base"]
      = [cachedir ++ "/files/base"]) \/
     (exists env,
        environment = VStr env /\ env <> EmptyString /\
        ["/srv/cache/files/dev"; "/srv/cache/files/base"]
        = [cachedir ++ "/files/" ++ env; cachedir ++ "/files/base"])).
Proof.
  apply (search_path_list_shape
           (mkSaltCheck [(VStr "cachedir", VStr "/srv/cache");
                         (VStr "environment", VStr "dev")] [] VNone)
           ["/srv/cache/files/dev"; "/srv/cache/files/base"]).
  reflexivity.
Defined.

(** X15. The options that [get_state_search_path_list] needs: without
    an [environment] key it raises [KeyError], whatever the cache
    directory; with one, a cache directory that is missing or is not a
    string makes it raise [TypeError]. *)
Theorem search_path_list_errors (self : SaltCheck) :
  (dict_get (VStr "environment") (opts self) = None ->
   get_state_search_path_list self = Raise (KeyError (VStr "environment")))
  /\
  (forall environment,
     dict_get (VStr "environment") (opts self) = Some environment ->
     (forall s, dict_get_or_None "cachedir" (opts self) <> VStr s) ->
     get_state_search_path_list self = Raise TypeError).
Proof.
  unfold get_state_search_path_list, dict_getitem. split.
  - intros ->. reflexivity.
  - intros environment -> Hc. simpl.
    destruct (dict_get_or_None "cachedir" (opts self))
      as [| | | cachedir | | |];
      try (destruct (py_truthy environment); reflexivity).
    now contradiction (Hc cachedir).
Qed.

Lemma search_path_list_errors_witness :
  get_state_search_path_list
    (mkSaltCheck [(VStr "cachedir", VStr "/srv/cache")] [] VNone)
  = Raise (KeyError (VStr "environment")) /\
  get_state_search_path_list
    (mkSaltCheck [(VStr "environment", VStr "dev")] [] VNone)
  = Raise TypeError.
Proof.
  split.
  - apply (proj1 (search_path_list_errors
                    (mkSaltCheck [(VStr "cachedir", VStr "/srv/cache")]
                       [] VNone))).
    reflexivity.
  - apply (proj2 (search_path_list_errors
                    (mkSaltCheck [(VStr "environment", VStr "dev")]
                       [] VNone)) (VStr "dev")).
    + reflexivity.
    + intros s. discriminate.
Defined.

Section Discovery.

Variable os_walk : string -> list (string * list string * list string).
Variable load_yaml : string -> outcome value.
Variable os_path_abspath : string -> string.

Lemma first_state_dir_Some (state_name : value) walk dirName :
  first_state_dir state_name walk = Some dirName ->
  exists subdirList fileList,
    In (dirName, subdirList, fileList) walk /\
    py_eq state_name (VStr (last_component dirName)) = true /\
    In "salt-check-tests" subdirList.
Proof.
  induction walk as [|[[d subs] files] walk IH]; cbn [first_state_dir];
    [discriminate|].
  destruct (py_eq state_name (VStr (last_component d))
            && existsb (String.eqb "salt-check-tests") subs) eqn:E.
  - intros H; inversion H; subst.
    apply andb_true_iff in E as [E1 E2].
    apply existsb_exists in E2 as (x & Hin & Hx).
    apply String.eqb_eq in Hx. subst x.
    exists subs, files. split; [now left|]. split; assumption.
  - intros H. destruct (IH H) as (s & f & Hin & Hrest).
    exists s, f. split; [now right | exact Hrest].
Qed.

Lemma first_state_dir_None (state_name : value) walk :
  first_state_dir state_name walk = None <->
  forall dirName subdirList fileList,
    In (dirName, subdirList, fileList) walk ->
    py_eq state_name (VStr (last_component dirName)) = true ->
    ~ In "salt-check-tests" subdirList.
Proof.
  induction walk as [|[[d subs] files] walk IH]; cbn [first_state_dir].
  - split; [intros _ d s f Hin; destruct Hin | reflexivity].
  - destruct (py_eq state_name (VStr (last_component d))
              && existsb (String.eqb "salt-check-tests") subs) eqn:E.
    + split; [discriminate|]. intros H. exfalso.
      apply andb_true_iff in E as [E1 E2].
      apply existsb_exists in E2 as (x & Hin & Hx).
      apply String.eqb_eq in Hx. subst x.
      exact (H d subs files (or_introl eq_refl) E1 Hin).
    + rewrite IH. split.
      * intros H d' s' f' [Heq|Hin] Hname Hsub;
          [|exact (H d' s' f' Hin Hname Hsub)].
        inversion Heq; subst. rewrite Hname in E. cbn [andb] in E.
        assert (existsb (String.eqb "salt-check-tests") s' = true);
          [|congruence].
        apply existsb_exists. exists "salt-check-tests". split; [easy|].
        apply String.eqb_refl.
      * intros H d' s' f' Hin. apply (H d' s' f'). now right.
Qed.

(** X16. [find_state_dir] returns [None] or a directory.  A directory it
    returns was met while walking one of the search paths, bears the
    name of the state and holds a [salt-check-tests] sub-directory; it
    returns [None] exactly when no directory walked under any search
    path does. *)
Theorem find_state_dir_finds_a_state_directory
  (stl : StateTestLoader) (state_name : value) :
  (forall dirName,
     find_state_dir os_walk stl state_name = VStr dirName ->
     exists path subdirList fileList,
       In path (search_paths stl) /\
       In (dirName, subdirList, fileList) (os_walk path) /\
       py_eq state_name (VStr (last_component dirName)) = true /\
       In "salt-check-tests" subdirList) /\
  (find_state_dir os_walk stl state_name = VNone <->
   forall path dirName subdirList fileList,
     In path (search_paths stl) ->
     In (dirName, subdirList, fileList) (os_walk path) ->
     py_eq state_name (VStr (last_component dirName)) = true ->
     ~ In "salt-check-tests" subdirList) /\
  (find_state_dir os_walk stl state_name = VNone \/
   exists dirName, find_state_dir os_walk stl state_name = VStr dirName).
Proof.
  unfold find_state_dir. induction (search_paths stl) as [|path paths IH];
    cbn [find_in_paths].
  - split; [intros d H; discriminate H|]. split; [|now left].
    split; [intros _ p d s f Hin; destruct Hin | reflexivity].
  - destruct IH as (IH1 & IH2 & IH3).
    destruct (first_state_dir state_name (os_walk path)) as [d|] eqn:E.
    + destruct (first_state_dir_Some _ _ _ E) as (s & f & Hin & Hn & Hs).
      split; [|split].
      * intros dirName H; inversion H; subst.
        exists path, s, f. repeat split; auto. now left.
      * split; [discriminate|]. intros H. exfalso.
        exact (H path d s f (or_introl eq_refl) Hin Hn Hs).
      * right. eauto.
    + split; [|split].
      * intros dirName H. destruct (IH1 _ H) as (p & s & f & Hp & Hrest).
        exists p, s, f. split; [now right | exact Hrest].
      * split.
        -- intros H p d s f [<-|Hp].
           ++ exact (proj1 (first_state_dir_None _ _) E d s f).
           ++ exact (proj1 IH2 H p d s f Hp).
        -- intros H. apply IH2. intros p d s f Hp.
           apply (H p d s f). now right.
      * exact IH3.
Qed.

(** The files that one walk contributes. *)
Lemma gathered_files (walk : list (string * list string * list string))
  (files : list string) :
  fold_left
    (fun files (entry : string * list string * list string) =>
       let '(dirName, _, fileList) := entry in
       fold_left
         (fun files fname =>
            if endswith fname ".tst"
            then (files ++ [os_path_abspath (dirName ++ os_sep ++ fname)])%list
            else files)
         fileList files)
    walk files
  = (files ++
     flat_map
       (fun entry : string * list string * list string =>
          let '(dirName, _, fileList) := entry in
          map (fun fname => os_path_abspath (dirName ++ os_sep ++ fname))
            (filter (fun fname => endswith fname ".tst") fileList))
       walk)%list.
Proof.
  revert files. induction walk as [|[[d subs] fl] walk IH]; intros files;
    cbn [fold_left flat_map].
  - now rewrite app_nil_r.
  - rewrite IH, app_assoc. f_equal.
    clear. revert files. induction fl as [|fname fl IH]; intros files;
      cbn [fold_left filter].
    + now rewrite app_nil_r.
    + rewrite IH. destruct (endswith fname ".tst"); [|reflexivity].
      cbn [map]. now rewrite <- app_assoc.
Qed.

(** X17. [gather_files] only adds: the files already gathered stay in
    front, the search paths and the collection are untouched, and the
    files added are exactly the files whose name ends in [.tst] met
    while walking the [salt-check-tests] directory of the given state
    directory, each as the absolute path of directory and name. *)
Theorem gather_files_adds_the_tst_files
  (stl stl' : StateTestLoader) (filepath : value) :
  gather_files os_walk os_path_abspath stl filepath = Ret stl' ->
  exists state_dir added,
    filepath = VStr state_dir /\
    search_paths stl' = search_paths stl /\
    test_dict stl' = test_dict stl /\
    test_files stl' = (test_files stl ++ added)%list /\
    forall file,
      In file added <->
      exists dirName subdirList fileList fname,
        In (dirName, subdirList, fileList)
          (os_walk (state_dir ++ "/salt-check-tests")) /\
        In fname fileList /\
        endswith fname ".tst" = true /\
        file = os_path_abspath (dirName ++ "/" ++ fname).
Proof.
  unfold gather_files.
  destruct filepath as [| | | state_dir | | |]; try discriminate.
  cbn [py_add_str obind as_path]. rewrite gathered_files.
  intros H; inversion H; subst; clear H. cbn [search_paths test_dict test_files].
  eexists state_dir, _. split; [reflexivity|]. split; [reflexivity|].
  split; [reflexivity|]. split.
  { rewrite str_app_assoc. reflexivity. }
  intros file. rewrite in_flat_map. split.
  - intros ([[d subs] fl] & Hin & Hf).
    apply in_map_iff in Hf as (fname & <- & Hf).
    apply filter_In in Hf as [Hf Hend].
    exists d, subs, fl, fname. auto.
  - intros (d & subs & fl & fname & Hin & Hf & Hend & ->).
    exists (d, subs, fl). split; [exact Hin|].
    apply in_map_iff. exists fname. split; [reflexivity|].
    apply filter_In. auto.
Qed.

(** X18. [load_test_suite] stops at the first file it cannot take: when
    the files before it parse to mappings, the error of reading or
    parsing that file is raised as it is, and a file that parses to
    anything but a mapping (an empty file parses to [None]) raises
    [AttributeError]; the files after it are not looked at. *)
Theorem load_test_suite_stops_at_the_first_bad_file
  (stl : StateTestLoader) (good rest : list string) (bad : string)
  (e : exc) :
  test_files stl = (good ++ bad :: rest)%list ->
  Forall (fun f => exists c, load_yaml f = Ret (VDict c)) good ->
  load_yaml bad = Raise e \/
  (exists v, load_yaml bad = Ret v /\ (forall c, v <> VDict c) /\
             e = AttributeError) ->
  load_test_suite load_yaml stl = Raise e.
Proof.
  intros Hfiles Hgood Hbad. unfold load_test_suite. rewrite Hfiles.
  rewrite fold_left_app. cbn [fold_left].
  assert (Hpre : exists stl1,
            fold_left (fun acc myfile =>
                         obind acc (fun stl => load_file load_yaml stl myfile))
              good (Ret stl) = Ret stl1).
  { clear Hfiles. revert stl.
    induction Hgood as [|f good [c Hf] _ IH]; intros stl;
      cbn [fold_left]; [eauto|].
    cbn [obind]. unfold load_file at 2. rewrite Hf. cbn [obind]. apply IH. }
  destruct Hpre as [stl1 ->]. cbn [obind].
  assert (Hb : load_file load_yaml stl1 bad = Raise e).
  { unfold load_file. destruct Hbad as [->|(v & -> & Hv & ->)];
      [reflexivity|]. cbn [obind].
    destruct v; try reflexivity. now contradiction (Hv d). }
  rewrite Hb. clear. induction rest as [|f rest IH]; [reflexivity|].
  exact IH.
Qed.

End Discovery.

Lemma find_state_dir_finds_a_state_directory_witness :
  exists path subdirList fileList,
    In path [base_dir] /\
    In (base_dir ++ "/apache", subdirList, fileList) (sample_walk path) /\
    py_eq (VStr "apache") (VStr (last_component (base_dir ++ "/apache")))
    = true /\
    In "salt-check-tests" subdirList.
Proof.
  apply (proj1 (find_state_dir_finds_a_state_directory sample_walk
                  (StateTestLoader_init [base_dir]) (VStr "apache"))).
  reflexivity.
Defined.

Lemma gather_files_adds_the_tst_files_witness :
  let stl := StateTestLoader_init [base_dir] in
  exists state_dir added,
    VStr (base_dir ++ "/apache") = VStr state_dir /\
    search_paths
      (mkLoader [base_dir]
         [base_dir ++ "/apache/salt-check-tests/1.tst";
          base_dir ++ "/apache/salt-check-tests/2.tst"] [])
    = search_paths stl /\
    test_dict
      (mkLoader [base_dir]
         [base_dir ++ "/apache/salt-check-tests/1.tst";
          base_dir ++ "/apache/salt-check-tests/2.tst"] [])
    = test_dict stl /\
    test_files
      (mkLoader [base_dir]
         [base_dir ++ "/apache/salt-check-tests/1.tst";
          base_dir ++ "/apache/salt-check-tests/2.tst"] [])
    = (test_files stl ++ added)%list /\
    forall file,
      In file added <->
      exists dirName subdirList fileList fname,
        In (dirName, subdirList, fileList)
          (sample_walk (state_dir ++ "/salt-check-tests")) /\
        In fname fileList /\
        endswith fname ".tst" = true /\
        file = sample_abspath (dirName ++ "/" ++ fname).
Proof.
  intros stl.
  apply (gather_files_adds_the_tst_files sample_walk sample_abspath stl
           (mkLoader [base_dir]
              [base_dir ++ "/apache/salt-check-tests/1.tst";
               base_dir ++ "/apache/salt-check-tests/2.tst"] [])
           (VStr (base_dir ++ "/apache"))).
  reflexivity.
Defined.

Lemma load_test_suite_stops_at_the_first_bad_file_witness :
  let empty_file path :=
    if String.eqb path "empty.tst" then Ret VNone else sample_load path in
  load_test_suite empty_file
    (mkLoader [base_dir]
       [base_dir ++ "/apache/salt-check-tests/1.tst"; "empty.tst";
        base_dir ++ "/apache/salt-check-tests/2.tst"] [])
  = Raise AttributeError.
Proof.
  intros empty_file.
  apply (load_test_suite_stops_at_the_first_bad_file empty_file
           (mkLoader [base_dir]
              [base_dir ++ "/apache/salt-check-tests/1.tst"; "empty.tst";
               base_dir ++ "/apache/salt-check-tests/2.tst"] [])
           [base_dir ++ "/apache/salt-check-tests/1.tst"]
           [base_dir ++ "/apache/salt-check-tests/2.tst"]
           "empty.tst" AttributeError).
  - reflexivity.
  - constructor; [|constructor]. exists file_1. reflexivity.
  - right. exists VNone. split; [reflexivity|]. split; [|reflexivity].
    intros c. discriminate.
Defined.

(* ================================================================== *)
(** * Top states *)
(* ================================================================== *)

Lemma split_on_not_nil (c : ascii) (s : string) : split_on c s <> [].
Proof.
  destruct s as [|a s]; cbn [split_on]; [discriminate|].
  destruct (Ascii.eqb a c); [discriminate|].
  destruct (split_on c s); discriminate.
Qed.

(** The first piece of a split holds no separator. *)
Lemma split_on_head (c : ascii) (s n : string) (rest : list string) :
  split_on c s = n :: rest -> str_has c n = false.
Proof.
  revert n rest. induction s as [|a s IH]; intros n rest; cbn [split_on].
  - intros H; inversion H; reflexivity.
  - destruct (Ascii.eqb a c) eqn:E.
    + intros H; inversion H; reflexivity.
    + destruct (split_on c s) as [|h t] eqn:Hs.
      * now contradiction (split_on_not_nil c s).
      * intros H; inversion H; subst. cbn [str_has].
        rewrite Ascii.eqb_sym, E. exact (IH h _ eq_refl).
Qed.

(** What the loop of [get_top_states] keeps. *)
Lemma top_level_names_spec (states : list value) (acc names : list string) :
  top_level_names states acc = Ret names ->
  (NoDup acc -> NoDup names) /\
  (forall n,
     In n names <->
     In n acc \/
     exists s rest, In (VStr s) states /\ split_dot s = n :: rest) /\
  (forall x, In x states -> exists s, x = VStr s).
Proof.
  revert acc. induction states as [|state states IH]; intros acc;
    cbn [top_level_names].
  - intros H; inversion H; subst. split; [auto|]. split.
    + intros n. split; [auto|]. intros [H'|(s & r & [] & _)]. exact H'.
    + intros x [].
  - destruct state as [| | | s | | |]; try discriminate.
    cbn [py_split_dot obind].
    destruct (split_dot s) as [|state_name rest] eqn:Hs; [discriminate|].
    intros H. destruct (IH _ H) as (Hnd & Hin & Hstr). clear IH H.
    destruct (existsb (String.eqb state_name) acc) eqn:Hex;
      cbn [negb] in *.
    + apply existsb_exists in Hex as (x & Hx & Heq).
      apply String.eqb_eq in Heq. subst x.
      split; [exact Hnd|]. split.
      * intros n. rewrite Hin. split.
        -- intros [Ha|(s' & r & Hs' & Hsp)]; [now left|].
           right. exists s', r. split; [now right | exact Hsp].
        -- intros [Ha|(s' & r & [Heq|Hs'] & Hsp)]; [now left| |].
           ++ inversion Heq; subst. rewrite Hs in Hsp.
              inversion Hsp; subst. now left.
           ++ right. eauto.
      * intros x [<-|Hx']; [eauto | auto].
    + split; [|split].
      * intros Hacc. apply Hnd. apply NoDup_app; [exact Hacc | | ].
        -- constructor; [intros [] | constructor].
        -- intros x Hxa [Hx|[]]. subst x.
           assert (existsb (String.eqb state_name) acc = true);
             [|congruence].
           apply existsb_exists. exists state_name. split; [exact Hxa|].
           apply String.eqb_refl.
      * intros n. rewrite Hin, in_app_iff. split.
        -- intros [[Ha|[<-|[]]]|(s' & r & Hs' & Hsp)].
           ++ now left.
           ++ right. exists s, rest. split; [now left | exact Hs].
           ++ right. exists s', r. split; [now right | exact Hsp].
        -- intros [Ha|(s' & r & [Heq|Hs'] & Hsp)].
           ++ left. now left.
           ++ inversion Heq; subst. rewrite Hs in Hsp.
              inversion Hsp; subst. left. right. now left.
           ++ right. eauto.
      * intros x [<-|Hx']; [eauto | auto].
Qed.

Section TopStates.

Variable is_SaltException : string -> bool.
Variable salt_function : list call -> call -> outcome value.
Variable dunder_opts : pydict.

(** X19. When [get_top_states] returns, the minion answered
    [state.show_top] with a mapping whose [base] entry lists strings,
    and the result holds, without repetition, exactly the parts of those
    states before their first period; no name in it holds a period. *)
Theorem get_top_states_names (w w' : world) (names : list string) :
  get_top_states is_SaltException salt_function w = (Ret names, w') ->
  exists top base states,
    call_salt_command is_SaltException salt_function
      (VStr "state.show_top") VNone VNone w = (Ret (VDict top), w') /\
    dict_get (VStr "base") top = Some base /\
    py_iter base = Ret states /\
    (forall x, In x states -> exists s, x = VStr s) /\
    NoDup names /\
    (forall n,
       In n names <->
       exists s rest, In (VStr s) states /\ split_dot s = n :: rest) /\
    (forall n, In n names -> str_has "."%char n = false).
Proof.
  unfold get_top_states, bind, lift.
  destruct (call_salt_command _ _ _ _ _ w) as [[returned|e] w1];
    [|discriminate].
  destruct returned as [| | | | | top |]; try discriminate.
  cbn [py_getitem_str]. unfold dict_getitem.
  destruct (dict_get (VStr "base") top) as [base|] eqn:Hbase;
    [|discriminate].
  destruct (py_iter base) as [states|e] eqn:Hiter; [|discriminate].
  destruct (top_level_names states []) as [names'|e] eqn:Hloop;
    [|discriminate].
  intros H; inversion H; subst.
  destruct (top_level_names_spec _ _ _ Hloop) as (Hnd & Hin & Hstr).
  assert (Hiff : forall n,
            In n names <->
            exists s rest, In (VStr s) states /\ split_dot s = n :: rest).
  { intros n. rewrite Hin. split; [intros [[]|H']; exact H' | now right]. }
  exists top, base, states.
  split; [reflexivity|]. split; [exact Hbase|]. split; [exact Hiter|].
  split; [exact Hstr|]. split; [apply Hnd; constructor|].
  split; [exact Hiff|].
  intros n Hn. apply Hiff in Hn as (s & rest & _ & Hsp).
  exact (split_on_head _ _ _ _ Hsp).
Qed.

(** X20. The errors of [get_top_states]: when the minion's answer to
    [state.show_top] is not a mapping (its error object, when the call
    failed) the result is a [TypeError], not the error itself; a mapping
    without [base] raises [KeyError]. *)
Theorem get_top_states_errors (w w1 : world) (returned : value) :
  call_salt_command is_SaltException salt_function
    (VStr "state.show_top") VNone VNone w = (Ret returned, w1) ->
  ((forall top, returned <> VDict top) ->
   get_top_states is_SaltException salt_function w
   = (Raise TypeError, w1)) /\
  (forall top,
     returned = VDict top ->
     dict_get (VStr "base") top = None ->
     get_top_states is_SaltException salt_function w
     = (Raise (KeyError (VStr "base")), w1)).
Proof.
  intros Hcall. unfold get_top_states, bind, lift. rewrite Hcall. split.
  - intros Hnot. destruct returned; try reflexivity.
    now contradiction (Hnot d).
  - intros top -> Hbase. cbn [py_getitem_str]. unfold dict_getitem.
    rewrite Hbase. reflexivity.
Qed.

End TopStates.

Lemma get_top_states_names_witness :
  exists top base states,
    call_salt_command no_SaltException top_minion
      (VStr "state.show_top") VNone VNone world0
    = (Ret (VDict top),
       called world0 (mkCall (VStr "state.show_top") [] [])) /\
    dict_get (VStr "base") top = Some base /\
    py_iter base = Ret states /\
    (forall x, In x states -> exists s, x = VStr s) /\
    NoDup ["apache"; "nginx"] /\
    (forall n,
       In n ["apache"; "nginx"] <->
       exists s rest, In (VStr s) states /\ split_dot s = n :: rest) /\
    (forall n, In n ["apache"; "nginx"] -> str_has "."%char n = false).
Proof.
  apply (get_top_states_names no_SaltException top_minion world0
           (called world0 (mkCall (VStr "state.show_top") [] []))
           ["apache"; "nginx"]).
  reflexivity.
Defined.

Lemma get_top_states_errors_witness :
  get_top_states no_SaltException test_minion world0
  = (Raise TypeError,
     caught (called world0 (mkCall (VStr "state.show_top") [] []))).
Proof.
  apply (proj1 (get_top_states_errors no_SaltException test_minion world0
                  (caught (called world0
                             (mkCall (VStr "state.show_top") [] [])))
                  (VExc 0 "CommandExecutionError" [VStr "state.show_top"])
                  eq_refl)).
  intros top. discriminate.
Defined.

(* ================================================================== *)
(** * The other entry points *)
(* ================================================================== *)

Lemma py_eq_not_a_string (a : value) (t : string) :
  (forall s, a <> VStr s) -> py_eq a (VStr t) = false.
Proof.
  intros H. destruct a; try reflexivity. now contradiction (H s).
Qed.

(** Setting a key that the dict does not hold appends the entry. *)
Lemma dict_set_new (k v : value) (d : pydict) :
  (forall k', In k' (map fst d) -> scalar_eq k' k = false) ->
  dict_set k v d = (d ++ [(k, v)])%list.
Proof.
  induction d as [|[k0 v0] d IH]; intros H; cbn [dict_set app];
    [reflexivity|].
  rewrite (H k0 (or_introl eq_refl)), IH; [reflexivity|].
  intros k' Hk'. apply H. now right.
Qed.

Section Entries.

Variable os_walk : string -> list (string * list string * list string).
Variable load_yaml : string -> outcome value.
Variable os_path_abspath : string -> string.
Variable py_eval : string -> outcome value.
Variable is_SaltException : string -> bool.
Variable salt_function : list call -> call -> outcome value.
Variable dunder_opts : pydict.

Lemma find_in_paths_not_a_string (state_name : value) (paths : list string) :
  (forall s, state_name <> VStr s) ->
  find_in_paths os_walk state_name paths = VNone.
Proof.
  intros H. induction paths as [|path paths IH]; cbn [find_in_paths];
    [reflexivity|].
  assert (Hw : forall walk, first_state_dir state_name walk = None).
  { induction walk as [|[[d subs] files] walk IHw]; cbn [first_state_dir];
      [reflexivity|].
    now rewrite (py_eq_not_a_string _ _ H). }
  now rewrite Hw.
Qed.

(** When no state directory is found the report is empty. *)
Lemma run_state_tests_nothing_found state_name w scheck w1 paths :
  py_truthy state_name = true ->
  hashable state_name = true ->
  SaltCheck_init is_SaltException salt_function dunder_opts None w
  = (Ret scheck, w1) ->
  get_state_search_path_list scheck = Ret paths ->
  find_in_paths os_walk state_name paths = VNone ->
  run_state_tests os_walk load_yaml os_path_abspath py_eval
    is_SaltException salt_function dunder_opts state_name w
  = (Ret (VDict [(state_name, VDict [])]), w1).
Proof.
  intros Ht Hh Hinit Hpaths Hfind. unfold run_state_tests.
  rewrite Ht. cbn [negb].
  unfold bind, lift, find_state_dir, StateTestLoader_init.
  cbn [search_paths]. rewrite Hinit, Hpaths, Hfind, Hh. reflexivity.
Qed.

(** X21. A state name that is not a string matches no directory: for
    such a name (the number [123], say) [run_state_tests] reports an
    empty result map, whatever the file tree holds, and loads no test
    file. *)
Theorem state_name_that_is_not_a_string state_name w scheck w1 paths :
  (forall s, state_name <> VStr s) ->
  py_truthy state_name = true ->
  hashable state_name = true ->
  SaltCheck_init is_SaltException salt_function dunder_opts None w
  = (Ret scheck, w1) ->
  get_state_search_path_list scheck = Ret paths ->
  run_state_tests os_walk load_yaml os_path_abspath py_eval
    is_SaltException salt_function dunder_opts state_name w
  = (Ret (VDict [(state_name, VDict [])]), w1).
Proof.
  intros Hs Ht Hh Hinit Hpaths.
  apply (run_state_tests_nothing_found _ _ _ _ _ Ht Hh Hinit Hpaths).
  now apply find_in_paths_not_a_string.
Qed.

(** X22. [_get_test_files] has no guard for a state without a test
    directory: when no directory matches, [gather_files] is handed
    [None] and the call raises [TypeError]. *)
Theorem get_test_files_without_a_state_directory
  state_name w scheck w1 paths :
  SaltCheck_init is_SaltException salt_function dunder_opts None w
  = (Ret scheck, w1) ->
  get_state_search_path_list scheck = Ret paths ->
  find_in_paths os_walk state_name paths = VNone ->
  _get_test_files os_walk os_path_abspath is_SaltException salt_function
    dunder_opts state_name w
  = (Raise TypeError, w1).
Proof.
  intros Hinit Hpaths Hfind. unfold _get_test_files, bind, lift.
  rewrite Hinit, Hpaths. unfold find_state_dir, StateTestLoader_init.
  cbn [search_paths]. rewrite Hfind. reflexivity.
Qed.

(** A call without arguments to a minion whose errors derive from
    [Exception] returns, and is recorded. *)
Lemma call_without_arguments (fn : value) (w : world) :
  raises_only_Exceptions salt_function ->
  exists v w',
    call_salt_command is_SaltException salt_function fn VNone VNone w
    = (Ret v, w') /\
    calls w' = (calls w ++ [mkCall fn [] []])%list.
Proof.
  intros Hm. rewrite call_salt_command_cases. cbn [star_args star_kwargs
    py_truthy]. cbv iota beta zeta.
  destruct (salt_function (calls w) _) as [v|e] eqn:E.
  - eexists _, _. split; reflexivity.
  - rewrite (Hm _ _ _ E), orb_true_r. eexists _, _. split; reflexivity.
Qed.

(** X23. [update_master_cache] answers [True] whether or not the cache
    was updated: with a minion whose errors all derive from [Exception],
    it always returns [True], after exactly three calls
    ([sys.list_modules], [cp.cache_master], [pillar.items]) whose
    results, errors included, it drops. *)
Theorem update_master_cache_always_True (w : world) :
  raises_only_Exceptions salt_function ->
  exists w',
    update_master_cache is_SaltException salt_function dunder_opts w
    = (Ret (VBool true), w') /\
    calls w' =
    (calls w ++ [mkCall (VStr "sys.list_modules") [] [];
                 mkCall (VStr "cp.cache_master") [] [];
                 mkCall (VStr "pillar.items") [] []])%list.
Proof.
  intros Hm.
  unfold update_master_cache, cache_master_files, SaltCheck_init,
    populate_salt_modules_list, bind, ret.
  destruct (call_without_arguments (VStr "sys.list_modules") w Hm)
    as (v1 & w1 & -> & H1).
  destruct (call_without_arguments (VStr "cp.cache_master") w1 Hm)
    as (v2 & w2 & -> & H2).
  destruct (call_without_arguments (VStr "pillar.items") w2 Hm)
    as (v3 & w3 & -> & H3).
  exists w3. split; [reflexivity|].
  rewrite H3, H2, H1, <- !app_assoc. reflexivity.
Qed.

(** X24. The module-level [run_test] answers [test must be dictionary]
    whenever its [test] argument is missing, null, not a dict, or an
    empty dict; the [SaltCheck] object is built first, so the minion has
    been asked for its modules all the same. *)
Theorem run_test_cli_wants_a_dictionary kwargs w scheck w1 :
  SaltCheck_init is_SaltException salt_function dunder_opts None w
  = (Ret scheck, w1) ->
  (forall entry entries,
     dict_get_or_None "test" kwargs <> VDict (entry :: entries)) ->
  run_test_cli is_SaltException salt_function dunder_opts py_eval kwargs w
  = (Ret (VStr "test must be dictionary"), w1).
Proof.
  intros Hinit Hnot. unfold run_test_cli, bind. rewrite Hinit.
  destruct (dict_get_or_None "test" kwargs) as [| | | | | d |];
    try reflexivity.
  destruct d as [|entry entries]; [reflexivity|].
  now contradiction (Hnot entry entries).
Qed.

End Entries.

Lemma state_name_that_is_not_a_string_witness :
  run_state_tests sample_walk sample_load sample_abspath eval_names
    no_SaltException test_minion sample_opts (VInt 123) world0
  = (Ret (VDict [(VInt 123, VDict [])]),
     called world0 (mkCall (VStr "sys.list_modules") [] [])).
Proof.
  apply (state_name_that_is_not_a_string sample_walk sample_load
           sample_abspath eval_names no_SaltException test_minion
           sample_opts (VInt 123) world0
           (mkSaltCheck sample_opts (assertions_list test_scheck)
              (VList [VStr "test"]))
           (called world0 (mkCall (VStr "sys.list_modules") [] []))
           [base_dir]);
    try reflexivity.
  intros s. discriminate.
Defined.

Lemma get_test_files_without_a_state_directory_witness :
  _get_test_files sample_walk sample_abspath no_SaltException test_minion
    sample_opts (VStr "nginx") world0
  = (Raise TypeError,
     called world0 (mkCall (VStr "sys.list_modules") [] [])).
Proof.
  apply (get_test_files_without_a_state_directory sample_walk
           sample_abspath no_SaltException test_minion sample_opts
           (VStr "nginx") world0
           (mkSaltCheck sample_opts (assertions_list test_scheck)
              (VList [VStr "test"]))
           (called world0 (mkCall (VStr "sys.list_modules") [] []))
           [base_dir]);
    reflexivity.
Defined.

Lemma top_minion_raises_only_Exceptions :
  raises_only_Exceptions top_minion.
Proof.
  intros history c e. unfold top_minion.
  destruct (py_eq (call_fun c) (VStr "state.show_top")); [discriminate|].
  destruct (py_eq (call_fun c) (VStr "cp.cache_master"));
    [intros H; inversion H; reflexivity|].
  destruct (py_eq (call_fun c) (VStr "pillar.items")); [discriminate|].
  apply test_minion_raises_only_Exceptions.
Qed.

Lemma update_master_cache_always_True_witness :
  exists w',
    update_master_cache no_SaltException top_minion sample_opts world0
    = (Ret (VBool true), w') /\
    calls w' =
    (calls world0 ++ [mkCall (VStr "sys.list_modules") [] [];
                      mkCall (VStr "cp.cache_master") [] [];
                      mkCall (VStr "pillar.items") [] []])%list.
Proof.
  apply (update_master_cache_always_True no_SaltException top_minion
           sample_opts world0).
  exact top_minion_raises_only_Exceptions.
Defined.

Lemma run_test_cli_wants_a_dictionary_witness :
  run_test_cli no_SaltException test_minion sample_opts eval_names
    [(VStr "test", VDict [])] world0
  = (Ret (VStr "test must be dictionary"),
     called world0 (mkCall (VStr "sys.list_modules") [] [])).
Proof.
  apply (run_test_cli_wants_a_dictionary eval_names no_SaltException
           test_minion sample_opts [(VStr "test", VDict [])] world0
           (mkSaltCheck sample_opts (assertions_list test_scheck)
              (VList [VStr "test"]))).
  - reflexivity.
  - intros entry entries. discriminate.
Defined.

Section Highstate.

Variable os_walk : string -> list (string * list string * list string).
Variable load_yaml : string -> outcome value.
Variable os_path_abspath : string -> string.
Variable py_eval : string -> outcome value.
Variable is_SaltException : string -> bool.
Variable salt_function : list call -> call -> outcome value.
Variable dunder_opts : pydict.

(** What [run_state_tests] can return for a string. *)
Lemma run_state_tests_returns (s : string) (w w' : world) (r : value) :
  run_state_tests os_walk load_yaml os_path_abspath py_eval
    is_SaltException salt_function dunder_opts (VStr s) w = (Ret r, w') ->
  (s = EmptyString /\ r = VStr "State name required") \/
  (s <> EmptyString /\ exists results, r = VDict [(VStr s, VDict results)]).
Proof.
  unfold run_state_tests. destruct s as [|c s].
  - intros H; inversion H. now left.
  - cbn [py_truthy negb String.eqb hashable]. intros H. right.
    split; [discriminate|]. revert H.
    unfold bind at 1.
    destruct (SaltCheck_init _ _ _ None w) as [[scheck|e] w1];
      [|discriminate].
    unfold bind at 1, lift at 1.
    destruct (get_state_search_path_list scheck) as [paths|e];
      [|discriminate].
    unfold bind at 1.
    match goal with
    | |- (match ?c with _ => _ end) = _ -> _ =>
        destruct c as [[results|e] w2]; [|discriminate]
    end.
    unfold ret. intros H; inversion H. eauto.
Qed.

Lemma get_top_states_NoDup (w w' : world) (names : list string) :
  get_top_states is_SaltException salt_function w = (Ret names, w') ->
  NoDup names.
Proof.
  unfold get_top_states, bind, lift.
  destruct (call_salt_command _ _ _ _ _ w) as [[returned|e] w1];
    [|discriminate].
  destruct (py_getitem_str returned "base") as [base|e]; [|discriminate].
  destruct (py_iter base) as [states|e]; [|discriminate].
  destruct (top_level_names states []) as [names'|e] eqn:Hloop;
    [|discriminate].
  intros H; inversion H; subst.
  apply (proj1 (top_level_names_spec _ _ _ Hloop)). constructor.
Qed.

(** The report grows by one entry for each state. *)
Lemma run_states_keys (names : list string) :
  forall (acc : pydict) (ks : list string) (w w' : world) (report : pydict),
    run_states is_SaltException salt_function dunder_opts os_walk
      load_yaml os_path_abspath py_eval names acc w = (Ret report, w') ->
    map fst acc = map VStr ks ->
    NoDup (ks ++ names) ->
    map fst report = map VStr (ks ++ names) /\ ~ In EmptyString names.
Proof.
  induction names as [|n names IH]; intros acc ks w w' report;
    cbn [run_states].
  - unfold ret. intros H Hacc _; inversion H; subst.
    rewrite app_nil_r. auto.
  - unfold bind at 1.
    destruct (run_state_tests _ _ _ _ _ _ _ (VStr n) w) as [[r|e] w1] eqn:Hr;
      [|discriminate].
    destruct (run_state_tests_returns _ _ _ _ Hr)
      as [[-> ->]|(Hn & results & ->)].
    + discriminate.
    + intros Hrun Hacc Hnd.
      assert (Hfresh : ~ In n ks).
      { intros Hin. apply NoDup_remove_2 in Hnd. apply Hnd.
        apply in_or_app. now left. }
      assert (Hset : dict_set (VStr n) (VDict results) acc
                     = (acc ++ [(VStr n, VDict results)])%list).
      { apply dict_set_new. rewrite Hacc. intros k' Hk'.
        apply in_map_iff in Hk' as (k & <- & Hk). cbn [scalar_eq].
        apply String.eqb_neq. intros ->. exact (Hfresh Hk). }
      revert Hrun. unfold bind at 1, lift at 1.
      cbn [dict_update fold_left fst snd]. rewrite Hset. intros Hrun.
      destruct (IH _ (ks ++ [n])%list _ _ _ Hrun) as (Hkeys & Hempty).
      * rewrite !map_app, Hacc. reflexivity.
      * rewrite <- app_assoc. exact Hnd.
      * split.
        -- rewrite Hkeys, <- app_assoc. reflexivity.
        -- intros [Heq|Hin]; [exact (Hn Heq) | exact (Hempty Hin)].
Qed.

(** X25. When [run_highstate_tests] returns, its report has exactly one
    entry for each top-level state name, in the order of
    [get_top_states]; and no top-level name was empty: for an empty name
    [run_state_tests] returns its string [State name required], which
    [update] cannot take, and the whole run raises. *)
Theorem run_highstate_tests_report (w w' : world) (r : value) :
  run_highstate_tests is_SaltException salt_function dunder_opts os_walk
    load_yaml os_path_abspath py_eval w = (Ret r, w') ->
  exists names w1 report,
    _get_top_states is_SaltException salt_function dunder_opts w
    = (Ret names, w1) /\
    r = VDict report /\
    map fst report = map VStr names /\
    NoDup names /\
    ~ In EmptyString names.
Proof.
  unfold run_highstate_tests. unfold bind at 1.
  destruct (_get_top_states _ _ _ w) as [[names|e] w1] eqn:Htop;
    [|discriminate].
  unfold bind at 1.
  destruct (run_states _ _ _ _ _ _ _ names [] w1) as [[report|e] w2]
    eqn:Hrun; [|discriminate].
  unfold ret. intros H; inversion H; subst.
  assert (Hnd : NoDup names).
  { revert Htop. unfold _get_top_states, bind.
    destruct (SaltCheck_init _ _ _ None w) as [[sc|e] w0]; [|discriminate].
    apply get_top_states_NoDup. }
  destruct (run_states_keys names [] [] _ _ _ Hrun eq_refl Hnd)
    as (Hkeys & Hempty).
  exists names, w1, report. auto.
Qed.

End Highstate.

Lemma run_highstate_tests_report_witness :
  exists names w1 report,
    _get_top_states no_SaltException top_minion sample_opts world0
    = (Ret names, w1) /\
    VDict [(VStr "apache",
            VDict [(VStr "dup", VStr "False: c is not equal to b");
                   (VStr "ping", VBool true)]);
           (VStr "nginx", VDict [])]
    = VDict report /\
    map fst report = map VStr names /\
    NoDup names /\
    ~ In EmptyString names.
Proof.
  apply (run_highstate_tests_report sample_walk sample_load sample_abspath
           eval_names no_SaltException top_minion sample_opts world0
           (snd (run_highstate_tests no_SaltException top_minion
                   sample_opts sample_walk sample_load sample_abspath
                   eval_names world0))).
  vm_compute. reflexivity.
Defined.

(** A top state whose name starts with a period has an empty top-level
    name, and the run raises. *)
Example run_highstate_tests_empty_name :
  let minion history c :=
    if py_eq (call_fun c) (VStr "state.show_top")
    then Ret (VDict [(VStr "base", VList [VStr ".hidden"])])
    else test_minion history c in
  fst (run_highstate_tests no_SaltException minion sample_opts sample_walk
         sample_load sample_abspath eval_names world0)
  = Raise ValueError.
Proof. reflexivity. Qed.

(* ================================================================== *)
(** * Validation and the minion, once more *)
(* ================================================================== *)

Section Registry.

Variable py_eval : string -> outcome value.
Variable is_SaltException : string -> bool.
Variable salt_function : list call -> call -> outcome value.

(** X26. The fallback list of [is_valid_function] is never used: when
    the minion fails to list the functions of a module, with an error
    that derives from [Exception], [call_salt_command] has already
    turned the error into a value, and the membership test on that
    exception object raises [TypeError]. *)
Theorem failed_function_listing_raises (module function : string)
  (w : world) (e : exc) :
  salt_function (calls w)
    (mkCall (VStr "sys.list_functions") [VStr module] []) = Raise e ->
  is_Exception (exc_class e) = true ->
  is_valid_function is_SaltException salt_function module function w
  = (Raise TypeError,
     caught (called w (mkCall (VStr "sys.list_functions")
                         [VStr module] []))).
Proof.
  intros Hfail Hexc. rewrite is_valid_function_unfold.
  rewrite call_salt_command_cases.
  cbn [star_args star_kwargs py_truthy py_iter]. cbv iota beta zeta.
  rewrite Hfail, Hexc, orb_true_r. reflexivity.
Qed.



End Registry.

Lemma failed_function_listing_raises_witness :
  let minion history c :=
    if py_eq (call_fun c) (VStr "sys.list_functions")
    then Raise (mkExc "SaltClientError" [VStr "timed out"])
    else test_minion history c in
  let query := mkCall (VStr "sys.list_functions") [VStr "test"] [] in
  is_valid_function no_SaltException minion "test" "ping" world0
  = (Raise TypeError, caught (called world0 query)).
Proof.
  intros minion query.
  apply (failed_function_listing_raises no_SaltException minion "test"
           "ping" world0 (mkExc "SaltClientError" [VStr "timed out"]));
    reflexivity.
Defined.


(* ================================================================== *)
(** * Minion options *)
(* ================================================================== *)

(** X28. [show_minion_options] needs all five options: when it returns,
    the result maps [cachedir], [root_dir], [states_dirs], [environment]
    and [file_roots], in this order, each to the option of that name;
    when one of them is missing it raises [KeyError], for the first
    missing one. *)
Theorem show_minion_options_needs_five_keys (self : SaltCheck) :
  let names := ["cachedir"; "root_dir"; "states_dirs"; "environment";
                "file_roots"] in
  (forall r,
     show_minion_options self = Ret r ->
     exists d,
       r = VDict d /\
       map fst d = map VStr names /\
       forall key,
         In key names ->
         dict_get (VStr key) d = dict_get (VStr key) (opts self) /\
         dict_get (VStr key) (opts self) <> None) /\
  (forall before key after,
     names = (before ++ key :: after)%list ->
     (forall k, In k before -> dict_get (VStr k) (opts self) <> None) ->
     dict_get (VStr key) (opts self) = None ->
     show_minion_options self = Raise (KeyError (VStr key))).
Proof.
  intros names. subst names. unfold show_minion_options, dict_getitem.
  split.
  - intros r.
    destruct (dict_get (VStr "cachedir") (opts self)) as [v1|] eqn:H1;
      [|discriminate].
    destruct (dict_get (VStr "root_dir") (opts self)) as [v2|] eqn:H2;
      [|discriminate].
    destruct (dict_get (VStr "states_dirs") (opts self)) as [v3|] eqn:H3;
      [|discriminate].
    destruct (dict_get (VStr "environment") (opts self)) as [v4|] eqn:H4;
      [|discriminate].
    destruct (dict_get (VStr "file_roots") (opts self)) as [v5|] eqn:H5;
      [|discriminate].
    cbn [obind]. intros H; inversion H; subst. eexists. split; [reflexivity|].
    split; [reflexivity|].
    intros key [<-|[<-|[<-|[<-|[<-|[]]]]]];
      (split; [|congruence]); symmetry; assumption.
  - intros before key after Hnames Hbefore Hkey.
    assert (Hraise : forall k rest,
              dict_get (VStr k) (opts self) = None ->
              obind (match dict_get (VStr k) (opts self) with
                     | Some v => Ret v
                     | None => Raise (KeyError (VStr k))
                     end) rest
              = (Raise (KeyError (VStr k)) : outcome value)).
    { intros k rest ->. reflexivity. }
    assert (Hpresent : forall k,
              In k before -> exists v, dict_get (VStr k) (opts self) = Some v).
    { intros k Hk. specialize (Hbefore k Hk).
      destruct (dict_get (VStr k) (opts self)); [eauto | contradiction]. }
    destruct before as [|b1 before]; cbn [app] in Hnames;
      inversion Hnames; subst; [now apply Hraise|].
    destruct (Hpresent "cachedir" (or_introl eq_refl)) as (v1 & ->).
    cbn [obind].
    destruct before as [|b2 before]; cbn [app] in *;
      match goal with H : _ :: _ = _ |- _ => inversion H; subst end;
      [now apply Hraise|].
    destruct (Hpresent "root_dir" (or_intror (or_introl eq_refl)))
      as (v2 & ->).
    cbn [obind].
    destruct before as [|b3 before]; cbn [app] in *;
      match goal with H : _ :: _ = _ :: _ |- _ => inversion H; subst end;
      [now apply Hraise|].
    destruct (Hpresent "states_dirs"
                (or_intror (or_intror (or_introl eq_refl)))) as (v3 & ->).
    cbn [obind].
    destruct before as [|b4 before]; cbn [app] in *;
      match goal with H : _ :: _ = _ :: _ |- _ => inversion H; subst end;
      [now apply Hraise|].
    destruct (Hpresent "environment"
                (or_intror (or_intror (or_intror (or_introl eq_refl)))))
      as (v4 & ->).
    cbn [obind].
    destruct before as [|b5 before]; cbn [app] in *;
      match goal with H : _ :: _ = _ :: _ |- _ => inversion H; subst end;
      [now apply Hraise|].
    destruct before; discriminate.
Qed.

Lemma show_minion_options_needs_five_keys_witness :
  let full :=
    mkSaltCheck [(VStr "cachedir", VStr "/srv/cache");
                 (VStr "root_dir", VStr "/");
                 (VStr "states_dirs", VList []);
                 (VStr "environment", VNone);
                 (VStr "file_roots", VDict [])] [] VNone in
  (exists d,
     VDict (opts full) = VDict d /\
     map fst d = map VStr ["cachedir"; "root_dir"; "states_dirs";
                           "environment"; "file_roots"] /\
     forall key,
       In key ["cachedir"; "root_dir"; "states_dirs"; "environment";
               "file_roots"] ->
       dict_get (VStr key) d = dict_get (VStr key) (opts full) /\
       dict_get (VStr key) (opts full) <> None) /\
  show_minion_options
    (mkSaltCheck [(VStr "cachedir", VStr "/srv/cache");
                  (VStr "environment", VNone)] [] VNone)
  = Raise (KeyError (VStr "root_dir")).
Proof.
  intros full. split.
  - apply (proj1 (show_minion_options_needs_five_keys full)).
    reflexivity.
  - apply (proj2 (show_minion_options_needs_five_keys
                    (mkSaltCheck [(VStr "cachedir", VStr "/srv/cache");
                                  (VStr "environment", VNone)] [] VNone))
             ["cachedir"] "root_dir"
             ["states_dirs"; "environment"; "file_roots"]).
    + reflexivity.
    + intros k [<-|[]]. discriminate.
    + reflexivity.
Defined.

(* ================================================================== *)
(** * The call without arguments *)
(* ================================================================== *)

Section CallTest.

Variable is_SaltException : string -> bool.
Variable salt_function : list call -> call -> outcome value.

(** X29. [call_salt_command_test] is [call_salt_command] without
    arguments, less its second handler: the two make the same single
    call and differ exactly when the minion raises an error that derives
    from [Exception] and is no [SaltException], which the first hands
    back as a value and the second lets through. *)
Theorem call_salt_command_test_is_less_defensive (fn : value) (w : world) :
  let c := mkCall fn [] [] in
  calls (snd (call_salt_command_test is_SaltException salt_function fn w))
  = (calls w ++ [c])%list /\
  (call_salt_command_test is_SaltException salt_function fn w
   <> call_salt_command is_SaltException salt_function fn VNone VNone w
   <->
   exists e,
     salt_function (calls w) c = Raise e /\
     is_SaltException (exc_class e) = false /\
     is_Exception (exc_class e) = true /\
     call_salt_command_test is_SaltException salt_function fn w
     = (Raise e, called w c) /\
     call_salt_command is_SaltException salt_function fn VNone VNone w
     = (Ret (VExc (next_oid w) (exc_class e) (exc_args e)),
        caught (called w c))).
Proof.
  intros c. rewrite call_salt_command_cases.
  cbn [star_args star_kwargs py_truthy]. cbv iota beta zeta.
  unfold call_salt_command_test, try_except, salt_lc_function, bind, lift.
  cbn [fst snd]. fold c. fold (called w c).
  destruct (salt_function (calls w) c) as [v|e] eqn:E.
  - split; [reflexivity|]. split; [intros H; exfalso; apply H; reflexivity|].
    intros (e & He & _). discriminate.
  - destruct (is_SaltException (exc_class e)) eqn:Hs; cbn [orb].
    + split; [reflexivity|]. split; [intros H; exfalso; apply H; reflexivity|].
      intros (e' & He & Hs' & _). congruence.
    + destruct (is_Exception (exc_class e)) eqn:Hx.
      * split; [reflexivity|]. split.
        -- intros _. exists e. repeat split; assumption.
        -- intros _. discriminate.
      * split; [reflexivity|]. split; [intros H; exfalso; apply H; reflexivity|].
        intros (e' & He & _ & Hx' & _). congruence.
Qed.

End CallTest.
